(** * Optimus agent core: planner, memory store, skill registry, agent loop

    A shallow embedding of
    - [optimus/core/memory.py]      (class [Memory]),
    - [optimus/skills/__init__.py]  (class [SkillRegistry]),
    - [optimus/core/llm_interface.py] ([call_model]),
    - [optimus/core/planner.py]     ([plan_steps] and its helpers),
    - [optimus/core/agent_loop.py]  ([run_agent], [_execute_step]),
    followed by the properties of these functions.

    Conventions of the embedding.
    - A Python [str] is a [string]; a character is a code point below 256.
    - A value obtained from [json.loads] is a [json] term; a Python [dict]
      with string keys is an association list in insertion order.
    - Python exceptions deriving from [Exception] are values of type [exn];
      code that may raise returns an [outcome].
    - The language model, the clock, the file system and the skill bodies are
      external: they act on an abstract [World].
    - Calls to [logging] have no effect on any value and are left out, except
      where evaluating the logged expression itself can raise.
    - The registry holds callables, as the annotation of [register] says;
      [register] does not check it, and the module [Untyped] gives the
      reading in which a slot may also hold [None]. *)

From Stdlib Require Import ZArith QArith Ascii String List Bool Lia.
From Stdlib Require Import Floats.SpecFloat.
From stdpp Require Import base option list strings gmap fin_maps.

Set Warnings "-register-all".
Close Scope Q_scope.
Open Scope Z_scope.

(** ** Python strings *)

Module PyStr.

Definition nl : string := String (ascii_of_nat 10) EmptyString.
Definition dq : string := String (ascii_of_nat 34) EmptyString.

(** [str.lower] on one code point below 256: [A-Z] and the Latin-1 capitals
    (0xC0..0xDE without the multiplication sign 0xD7) move up by 32. *)
Definition lower_char (c : ascii) : ascii :=
  let n := N_of_ascii c in
  if ((65 <=? n) && (n <=? 90))%N then ascii_of_N (n + 32)
  else if ((192 <=? n) && (n <=? 222) && negb (n =? 215))%N
       then ascii_of_N (n + 32)
  else c.

Fixpoint lower (s : string) : string :=
  match s with
  | EmptyString => EmptyString
  | String c s' => String (lower_char c) (lower s')
  end.

(** [s.startswith(p)] *)
Fixpoint startswith (p s : string) : bool :=
  match p, s with
  | EmptyString, _ => true
  | String a p', String b s' => if Ascii.eqb a b then startswith p' s' else false
  | String _ _, EmptyString => false
  end.

(** [sub in s] *)
Fixpoint contains (sub s : string) : bool :=
  startswith sub s ||
  match s with
  | EmptyString => false
  | String _ s' => contains sub s'
  end.

(** [len(s)] *)
Definition len (s : string) : Z := Z.of_nat (String.length s).

(** [s.find(c)] for a one-character needle: first index, or -1. *)
Fixpoint find_from (c : ascii) (s : string) (i : Z) : Z :=
  match s with
  | EmptyString => -1
  | String a s' => if Ascii.eqb a c then i else find_from c s' (i + 1)
  end.
Definition find (c : ascii) (s : string) : Z := find_from c s 0.

(** [s.rfind(c)] for a one-character needle: last index, or -1. *)
Fixpoint rfind_from (c : ascii) (s : string) (i : Z) (last : Z) : Z :=
  match s with
  | EmptyString => last
  | String a s' =>
      rfind_from c s' (i + 1) (if Ascii.eqb a c then i else last)
  end.
Definition rfind (c : ascii) (s : string) : Z := rfind_from c s 0 (-1).

(** Normalisation of one slice bound against a length, as [slice.indices]
    does for a step of 1. *)
Definition clamp (n i : Z) : Z :=
  if i <? 0 then Z.max (i + n) 0 else Z.min i n.

Fixpoint drop (n : nat) (s : string) : string :=
  match n, s with
  | O, _ => s
  | S n', String _ s' => drop n' s'
  | S _, EmptyString => EmptyString
  end.

Fixpoint take (n : nat) (s : string) : string :=
  match n, s with
  | S n', String a s' => String a (take n' s')
  | _, _ => EmptyString
  end.

(** [s[start:stop]] *)
Definition slice (s : string) (start stop : Z) : string :=
  let a := clamp (len s) start in
  let b := clamp (len s) stop in
  take (Z.to_nat (b - a)) (drop (Z.to_nat a) s).

(** Characters removed by [str.strip()] among the code points below 256. *)
Definition is_space (c : ascii) : bool :=
  let n := N_of_ascii c in
  (((9 <=? n) && (n <=? 13)) || ((28 <=? n) && (n <=? 32))
   || (n =? 133) || (n =? 160))%N.

Fixpoint lstrip (s : string) : string :=
  match s with
  | EmptyString => EmptyString
  | String a s' => if is_space a then lstrip s' else s
  end.

Fixpoint rstrip (s : string) : string :=
  match s with
  | EmptyString => EmptyString
  | String a s' =>
      match rstrip s' with
      | EmptyString => if is_space a then EmptyString else String a EmptyString
      | r => String a r
      end
  end.

Definition strip (s : string) : string := rstrip (lstrip s).

(** [sep.join(parts)] *)
Fixpoint join (sep : string) (parts : list string) : string :=
  match parts with
  | [] => EmptyString
  | [p] => p
  | p :: rest => p +:+ sep +:+ join sep rest
  end.

(** [s[:200] + "..." if len(s) > 200 else s] *)
Definition preview (s : string) : string :=
  if 200 <? len s then slice s 0 200 +:+ "..." else s.

(** [s.endswith(p)] *)
Definition endswith (p s : string) : bool :=
  (String.length p <=? String.length s)%nat
  && String.eqb (drop (String.length s - String.length p) s) p.

End PyStr.

(** [l[start:]] on a Python list. *)
Definition list_slice_from {A : Type} (l : list A) (start : Z) : list A :=
  skipn (Z.to_nat (PyStr.clamp (Z.of_nat (length l)) start)) l.

(** ** JSON values, as [json.loads] builds them *)

Inductive json : Type :=
| JNull
| JBool (b : bool)
| JInt (z : Z)
| JFloat (f : spec_float)
| JStr (s : string)
| JArr (items : list json)
| JObj (fields : list (string * json)).

(** A [dict] with [str] keys: bindings in insertion order, keys pairwise
    distinct.  [dict_get] reads the binding of a key, [dict_set] is
    [d[k] = v]: an existing key keeps its position, a new key goes last. *)
Fixpoint dict_get {V : Type} (k : string) (d : list (string * V)) : option V :=
  match d with
  | [] => None
  | (k', v) :: d' => if String.eqb k k' then Some v else dict_get k d'
  end.

Fixpoint dict_set {V : Type} (k : string) (v : V) (d : list (string * V))
  : list (string * V) :=
  match d with
  | [] => [(k, v)]
  | (k', v') :: d' =>
      if String.eqb k k' then (k, v) :: d' else (k', v') :: dict_set k v d'
  end.

Definition dict_keys {V : Type} (d : list (string * V)) : list string :=
  map fst d.

(** Truth value of a JSON value ([bool(v)]). *)
Definition truthy (v : json) : bool :=
  match v with
  | JNull => false
  | JBool b => b
  | JInt z => negb (z =? 0)
  | JFloat (S754_zero _) => false
  | JFloat _ => true
  | JStr s => negb (String.eqb s "")
  | JArr items => match items with [] => false | _ => true end
  | JObj fields => match fields with [] => false | _ => true end
  end.

(** [type(v).__name__] *)
Definition type_name (v : json) : string :=
  match v with
  | JNull => "NoneType"
  | JBool _ => "bool"
  | JInt _ => "int"
  | JFloat _ => "float"
  | JStr _ => "str"
  | JArr _ => "list"
  | JObj _ => "dict"
  end.

(** [isinstance(v, dict)] *)
Definition is_dict (v : json) : bool :=
  match v with JObj _ => true | _ => false end.

(** [x in names] for a list of [str]: a string equals a string with the same
    characters, and no other value equals a string. *)
Definition in_names (x : json) (names : list string) : bool :=
  match x with
  | JStr s => existsb (String.eqb s) names
  | _ => false
  end.

(** ** Exceptions and results *)

(** The classes told apart by the [except] clauses of the source.
    [JSONDecodeError] is what [json.loads] raises on a malformed text; its
    other failures, such as the [RecursionError] of a nesting too deep, are
    of other classes. *)
Inductive exn_class : Type :=
| ValueError | TypeError | AttributeError | KeyError | ImportError
| RuntimeError | JSONDecodeError.

(** An exception: its class and the text [str(e)] yields. *)
Record exn : Type := Exn { exn_kind : exn_class; exn_str : string }.

Inductive outcome (A : Type) : Type :=
| Ok (a : A)
| Raise (e : exn).
Arguments Ok {A} a.
Arguments Raise {A} e.

Definition is_ok {A : Type} (o : outcome A) : bool :=
  match o with Ok _ => true | Raise _ => false end.

(** [v.get(k, default)] *)
Definition py_get (v : json) (k : string) (default : json) : outcome json :=
  match v with
  | JObj d => Ok (match dict_get k d with Some x => x | None => default end)
  | _ => Raise (Exn AttributeError
                  ("'" +:+ type_name v +:+ "' object has no attribute 'get'"))
  end.

(** [v[k]] for a string key [k] *)
Definition py_getitem (v : json) (k : string) : outcome json :=
  match v with
  | JObj d =>
      match dict_get k d with
      | Some x => Ok x
      | None => Raise (Exn KeyError ("'" +:+ k +:+ "'"))
      end
  | JArr _ =>
      Raise (Exn TypeError "list indices must be integers or slices, not str")
  | JStr _ =>
      Raise (Exn TypeError "string indices must be integers, not 'str'")
  | _ =>
      Raise (Exn TypeError ("'" +:+ type_name v +:+ "' object is not subscriptable"))
  end.

(** Computations that read and update a state and may raise.  An update made
    before an exception is raised stays made. *)
Definition M (St A : Type) : Type := St -> outcome A * St.

#[global] Instance M_ret {St : Type} : MRet (M St) :=
  fun A a st => (Ok a, st).

#[global] Instance M_bind {St : Type} : MBind (M St) :=
  fun A B k m st =>
    match m st with
    | (Ok a, st') => k a st'
    | (Raise e, st') => (Raise e, st')
    end.

Definition raise {St A : Type} (e : exn) : M St A := fun st => (Raise e, st).

(** [try: m  except Exception as e: h e] *)
Definition try_except {St A : Type} (m : M St A) (h : exn -> M St A) : M St A :=
  fun st =>
    match m st with
    | (Ok a, st') => (Ok a, st')
    | (Raise e, st') => h e st'
    end.

Definition lift {St A : Type} (o : outcome A) : M St A := fun st => (o, st).


(** [a > b] on exact rationals. *)
Definition Qgtb (a b : Q) : bool := negb (Qle_bool a b).

(** ** Memory entries and the external collaborators *)

(** [{"step": step, "result": result, "timestamp": timestamp}] *)
Record MemoryEntry : Type := {
  entry_step : json;
  entry_result : string;
  entry_timestamp : string
}.

(** What lies outside the core.  [World] is the state of everything external
    (model, clock, files, whatever the skills touch).
    - [llm_generate prompt max_tokens temperature] is
      [get_llm().generate(prompt, max_tokens=.., temperature=..)];
    - [json_loads] is [json.loads], raising [json.JSONDecodeError];
    - [now_isoformat] is [datetime.now().isoformat()];
    - [write_document] is the body of [Memory._save]: opening the file and
      [json.dump], whose own exceptions [_save] swallows;
    - [py_str] is [str(v)] for a value that is not a [str]. *)
Class Collaborators : Type := {
  World : Type;
  llm_generate : string -> Z -> Q -> World -> outcome string * World;
  json_loads : string -> outcome json;
  now_isoformat : World -> string * World;
  write_document : gmap string (list MemoryEntry) -> World -> World;
  py_str : json -> string
}.

(** Interactions recorded while the agent runs, oldest first: a registry
    resolution, a skill invocation, a memory write. *)
Inductive event : Type :=
| EvResolve (action : json)
| EvInvoke (action : json) (params : list (string * json))
| EvStore (goal : string) (step : json) (result : string).

Definition is_resolve (e : event) : bool :=
  match e with EvResolve _ => true | _ => false end.

Definition is_store (e : event) : bool :=
  match e with EvStore _ _ _ => true | _ => false end.

Section Core.
Context `{Collaborators}.

(** The process state: [Memory.data] of the global [memory] object, the
    external world, and the record of interactions. *)
Record State : Type := {
  data : gmap string (list MemoryEntry);
  world : World;
  events : list event
}.

Definition on_world {A : Type} (f : World -> A * World) : M State A :=
  fun st =>
    let '(a, w) := f (world st) in
    (Ok a, {| data := data st; world := w; events := events st |}).

Definition on_world_raising {A : Type} (f : World -> outcome A * World)
  : M State A :=
  fun st =>
    let '(r, w) := f (world st) in
    (r, {| data := data st; world := w; events := events st |}).

Definition emit (e : event) : M State unit :=
  fun st =>
    (Ok tt, {| data := data st; world := world st;
               events := events st ++ [e] |}).

(** *** core/memory.py *)

Definition _save : M State unit :=
  fun st =>
    (Ok tt, {| data := data st;
               world := write_document (data st) (world st);
               events := events st |}).

Definition store (goal : string) (step : json) (result : string)
  : M State unit :=
  fun st =>
    let '(timestamp, w) := now_isoformat (world st) in
    let entry := {| entry_step := step; entry_result := result;
                    entry_timestamp := timestamp |} in
    let bucket := default [] (data st !! goal) in
    let st1 := {| data := <[goal := bucket ++ [entry]]> (data st);
                  world := w;
                  events := events st ++ [EvStore goal step result] |} in
    _save st1.

Definition retrieve (goal : string) (st : State) : list MemoryEntry :=
  default [] (data st !! goal).

(** The text an f-string puts in place of [{v}]. *)
Definition format_value (v : json) : string :=
  match v with
  | JStr s => s
  | _ => py_str v
  end.

(** One pass of the loop body of [get_recent_context]. *)
Definition context_part (entry : MemoryEntry) : outcome string :=
  match py_get (entry_step entry) "action" (JStr "unknown") with
  | Ok step_desc =>
      let result_preview := PyStr.preview (entry_result entry) in
      Ok ("- " +:+ format_value step_desc +:+ ": " +:+ result_preview)
  | Raise e => Raise e
  end.

Fixpoint context_parts (recent_entries : list MemoryEntry)
  : outcome (list string) :=
  match recent_entries with
  | [] => Ok []
  | entry :: rest =>
      match context_part entry with
      | Ok line =>
          match context_parts rest with
          | Ok lines => Ok (line :: lines)
          | Raise e => Raise e
          end
      | Raise e => Raise e
      end
  end.

Definition no_prior_context : string := "No prior context available.".

Definition get_recent_context (goal : string) (max_entries : Z) (st : State)
  : outcome string :=
  let entries := retrieve goal st in
  match entries with
  | [] => Ok no_prior_context
  | _ =>
      let recent_entries := list_slice_from entries (- max_entries) in
      match context_parts recent_entries with
      | Ok parts => Ok (PyStr.join PyStr.nl parts)
      | Raise e => Raise e
      end
  end.

(** [memory.get_recent_context(goal, max_entries)] as a step of a run. *)
Definition recent_context (goal : string) (max_entries : Z) : M State string :=
  fun st => (get_recent_context goal max_entries st, st).

Definition clear_goal (goal : string) : M State unit :=
  fun st =>
    match data st !! goal with
    | Some _ =>
        _save {| data := delete goal (data st); world := world st;
                 events := events st |}
    | None => (Ok tt, st)
    end.

(** *** skills/__init__.py *)

(** A skill called with keyword arguments: it returns a value, given here
    by its [str], or raises. *)
Definition capability : Type :=
  list (string * json) -> World -> outcome string * World.

(** [SkillRegistry.registry]: names to skills, in registration order. *)
Definition Registry : Type := list (string * capability).

Definition register (name : string) (func : capability) (self : Registry)
  : Registry :=
  dict_set name func self.

(** [resolve] hands back the registered object; the option is there for
    the caller's [is None] test, [None] standing for Python's [None]. *)
Definition resolve (self : Registry) (name : json)
  : outcome (option capability) :=
  match name with
  | JStr s =>
      match dict_get s self with
      | None =>
          Raise (Exn ValueError ("Skill '" +:+ s +:+ "' not found in registry"))
      | Some func => Ok (Some func)
      end
  | JArr _ | JObj _ =>
      Raise (Exn TypeError ("unhashable type: '" +:+ type_name name +:+ "'"))
  | _ =>
      Raise (Exn ValueError
               ("Skill '" +:+ py_str name +:+ "' not found in registry"))
  end.

Definition list_skills (self : Registry) : list string := dict_keys self.

(** *** core/llm_interface.py *)

Definition call_model (prompt : string) (max_tokens : option Z)
           (temperature : option Q) (w : World) : string * World :=
  let max_tokens := default 512 max_tokens in
  let temperature := default (7 # 10)%Q temperature in
  match llm_generate prompt max_tokens temperature w with
  | (Ok response, w') => (response, w')
  | (Raise _, w') => ("Error: Unable to generate response", w')
  end.
End Core.

(** *** core/planner.py *)

Section Planner.
Context `{Collaborators}.

(** The global [registry] of [skills/__init__.py]. *)
Variable registry : Registry.

Definition skill_descriptions : list (string * string) :=
  [ ("generate_task_code", "Generate code for a specific task or improvement");
    ("trace_variable_flow", "Trace how variables flow through code");
    ("scan_codebase", "Scan and analyze the codebase structure");
    ("analyze_dependencies", "Analyze code dependencies and imports") ].

Definition _format_skills_description (skills : list string) : string :=
  let formatted :=
    map (fun skill =>
           let desc := default "No description available"
                               (dict_get skill skill_descriptions) in
           "- " +:+ skill +:+ ": " +:+ desc) skills in
  PyStr.join PyStr.nl formatted.

(** A word between double quotes. *)
Definition q (s : string) : string := PyStr.dq +:+ s +:+ PyStr.dq.

(** [{"action": a, "params": {k1: v1, k2: v2}}] as the prompt prints it. *)
Definition sample_step (a k1 v1 k2 v2 : string) : string :=
  "{" +:+ q "action" +:+ ": " +:+ q a +:+ ", " +:+ q "params" +:+ ": {"
      +:+ q k1 +:+ ": " +:+ q v1 +:+ ", " +:+ q k2 +:+ ": " +:+ q v2 +:+ "}}".

Definition sample_step1 (a k1 v1 : string) : string :=
  "{" +:+ q "action" +:+ ": " +:+ q a +:+ ", " +:+ q "params" +:+ ": {"
      +:+ q k1 +:+ ": " +:+ q v1 +:+ "}}".

(** The f-string of [plan_steps]. *)
Definition plan_prompt (goal prior_context skills_description : string)
  : string :=
  PyStr.join PyStr.nl
    [ "You are Optimus Bot, a coding agent that helps improve and analyze code.";
      "";
      "Goal: " +:+ goal;
      "";
      "Prior Context from Memory:";
      prior_context;
      "";
      "Available Skills:";
      skills_description;
      "";
      "Your task is to create a step-by-step plan to achieve the goal. Return your response as a JSON array of steps.";
      "";
      "Each step should have this format:";
      sample_step "skill_name" "param1" "value1" "param2" "value2";
      "";
      "Example response:";
      "[";
      "    " +:+ sample_step1 "generate_task_code" "task"
                   "improve error handling in patch_engine.py" +:+ ",";
      "    " +:+ sample_step "trace_variable_flow" "file" "patch_engine.py"
                   "variable" "patch_result";
      "]";
      "";
      "Important:";
      "- Only use skills from the available skills list";
      "- Be specific with parameters";
      "- Focus on actionable steps";
      "- Return valid JSON only";
      "";
      "Plan:" ].

Definition _parse_plan_response (response : string) : outcome (list json) :=
  let response := PyStr.strip response in
  let start_idx := PyStr.find "["%char response in
  let end_idx := PyStr.rfind "]"%char response in
  if (start_idx =? -1) || (end_idx =? -1) then
    Raise (Exn ValueError "No JSON array found in response")
  else
    let json_str := PyStr.slice response start_idx (end_idx + 1) in
    match json_loads json_str with
    | Ok (JArr steps) => Ok steps
    | Ok _ => Raise (Exn ValueError "Response is not a list")
    | Raise e =>
        match exn_kind e with
        | JSONDecodeError =>
            Raise (Exn ValueError ("Invalid JSON in response: " +:+ exn_str e))
        | _ => Raise e
        end
    end.

(** The body of the loop of [_validate_steps] for one candidate: [None]
    where the source says [continue], otherwise the step that is appended,
    with [step["params"]] set to [{}] when absent or not a [dict]. *)
Definition validate_step (step : json) (available_skills : list string)
  : option json :=
  match step with
  | JObj fields =>
      let action := default JNull (dict_get "action" fields) in
      if negb (truthy action) then None
      else if negb (in_names action available_skills) then None
      else
        match dict_get "params" fields with
        | None => Some (JObj (dict_set "params" (JObj []) fields))
        | Some params =>
            if negb (is_dict params)
            then Some (JObj (dict_set "params" (JObj []) fields))
            else Some step
        end
  | _ => None
  end.

Fixpoint _validate_steps (steps : list json) (available_skills : list string)
  : list json :=
  match steps with
  | [] => []
  | step :: rest =>
      match validate_step step available_skills with
      | Some step' => step' :: _validate_steps rest available_skills
      | None => _validate_steps rest available_skills
      end
  end.

Definition fallback_step (action : string) (params : list (string * json))
  : json :=
  JObj [("action", JStr action); ("params", JObj params)].

Definition _get_fallback_plan (goal : string) : list json :=
  if PyStr.contains "patch" (PyStr.lower goal)
     || PyStr.contains "improve" (PyStr.lower goal)
  then [ fallback_step "generate_task_code" [("task", JStr goal)];
         fallback_step "trace_variable_flow" [("file", JStr "patch_engine.py")] ]
  else [ fallback_step "generate_task_code" [("task", JStr goal)] ].

(** The [try] block of [plan_steps]. *)
Definition plan_attempt (prompt : string) (available_skills : list string)
  : M State (list json) :=
  response ← on_world (call_model prompt (Some 1024) (Some (3 # 10)%Q));
  steps ← lift (_parse_plan_response response);
  let validated_steps := _validate_steps steps available_skills in
  mret validated_steps.

Definition plan_steps (goal prior_context : string) : M State (list json) :=
  let available_skills := list_skills registry in
  let skills_description := _format_skills_description available_skills in
  let prompt := plan_prompt goal prior_context skills_description in
  try_except (plan_attempt prompt available_skills)
             (fun _ => mret (_get_fallback_plan goal)).

End Planner.

(** *** core/agent_loop.py *)

Section AgentLoop.
Context `{Collaborators}.

Variable registry : Registry.

(** [registry.resolve(action)] *)
Definition resolve_skill (action : json) : M State (option capability) :=
  emit (EvResolve action);;
  lift (resolve registry action).

(** The call of [skill_func] with [params] unpacked as keyword arguments,
    followed by [str(result)]. *)
Definition invoke (skill_func : capability) (action params : json)
  : M State string :=
  match params with
  | JObj kwargs =>
      emit (EvInvoke action kwargs);;
      on_world_raising (skill_func kwargs)
  | _ =>
      raise (Exn TypeError
               ("argument after ** must be a mapping, not "
                  +:+ type_name params))
  end.

(** The [try] block of [_execute_step]. *)
Definition execute_attempt (goal : string) (step action params : json)
  : M State bool :=
  skill_func ← resolve_skill action;
  match skill_func with
  | None => mret false
  | Some func =>
      result ← invoke func action params;
      store goal step result;;
      mret true
  end.

Definition _execute_step (goal : string) (step : json) : M State bool :=
  action ← lift (py_get step "action" JNull);
  params ← lift (py_get step "params" (JObj []));
  try_except
    (execute_attempt goal step action params)
    (fun e =>
       let error_msg := "Error: " +:+ exn_str e in
       store goal step error_msg;;
       mret false).

(** The first loop of [run_agent] only logs, but the logged text reads
    [step['action']] and [step.get('params', {})]. *)
Fixpoint log_plan (plan : list json) : outcome unit :=
  match plan with
  | [] => Ok tt
  | step :: rest =>
      match py_getitem step "action" with
      | Raise e => Raise e
      | Ok _ =>
          match py_get step "params" (JObj []) with
          | Raise e => Raise e
          | Ok _ => log_plan rest
          end
      end
  end.

(** The second loop of [run_agent], from the step of index [i] on, with
    [success_count] successes so far; it yields the final count. *)
Fixpoint execute_plan (goal : string) (max_iterations : Z) (i : Z)
         (steps : list json) (success_count : Z) : M State Z :=
  match steps with
  | [] => mret success_count
  | step :: rest =>
      if max_iterations <? i then mret success_count
      else
        lift (py_getitem step "action");;
        success ← _execute_step goal step;
        execute_plan goal max_iterations (i + 1) rest
                     (if success : bool then success_count + 1
                      else success_count)
  end.

(** [success_count / len(plan) if plan else 0], as an exact rational.
    Python divides the two [int]s into a [float], rounded to nearest; the
    rounding is monotone and leaves 1/2 as it is, and a quotient above 1/2
    exceeds it by at least [1 / (2 * len(plan))], so for any list a machine
    can hold the comparison with [0.5] has the outcome computed here. *)
Definition success_rate (success_count : Z) (plan : list json) : Q :=
  match plan with
  | [] => 0%Q
  | _ => (inject_Z success_count / inject_Z (Z.of_nat (length plan)))%Q
  end.

(** The [try] block of [run_agent]. *)
Definition run_attempt (goal : string) (max_iterations : Z) : M State bool :=
  prior_context ← recent_context goal 5;
  plan ← plan_steps registry goal prior_context;
  match plan with
  | [] => mret false
  | _ =>
      lift (log_plan plan);;
      success_count ← execute_plan goal max_iterations 1 plan 0;
      mret (Qgtb (success_rate success_count plan) (1 # 2)%Q)
  end.

Definition run_agent (goal : string) (max_iterations : Z) : M State bool :=
  try_except (run_attempt goal max_iterations) (fun _ => mret false).

End AgentLoop.

(** How many registry resolutions and how many memory writes a state has
    seen. *)
Definition count_resolves `{Collaborators} (st : State) : nat :=
  length (List.filter is_resolve (events st)).

Definition count_stores `{Collaborators} (st : State) : nat :=
  length (List.filter is_store (events st)).

(** ** A small concrete setting

    One skill, [echo], which returns its [task] argument and raises without
    one; a model that answers with a scripted text; a decoder that knows the
    plan documents used below. *)

Module Demo.

Record ToyWorld : Type := {
  reply : outcome string;
  ticks : nat;
  file : option (gmap string (list MemoryEntry))
}.

(** A step that succeeds and a step that fails (no [task] for [echo]). *)
Definition good_step : json :=
  JObj [("action", JStr "echo"); ("params", JObj [("task", JStr "demo")])].
Definition bad_step : json := JObj [("action", JStr "echo")].
Definition bad_step_validated : json :=
  JObj [("action", JStr "echo"); ("params", JObj [])].
Definition unknown_step : json :=
  JObj [("action", JStr "fly"); ("params", JObj [])].

Definition good_text : string :=
  "{" +:+ q "action" +:+ ": " +:+ q "echo" +:+ ", " +:+ q "params" +:+ ": {"
      +:+ q "task" +:+ ": " +:+ q "demo" +:+ "}}".
Definition bad_text : string :=
  "{" +:+ q "action" +:+ ": " +:+ q "echo" +:+ "}".

(** The JSON text of a plan whose steps succeed where the flag is set. *)
Definition plan_text (flags : list bool) : string :=
  "[" +:+ PyStr.join ", "
            (map (fun ok : bool => if ok then good_text else bad_text) flags)
      +:+ "]".

Definition plan_value (flags : list bool) : json :=
  JArr (map (fun ok : bool => if ok then good_step else bad_step) flags).

Definition known_plans : list (list bool) :=
  [ []; [true]; [true; true; true];
    [true; true; false; false]; [true; true; true; false] ].

Fixpoint decode_among (plans : list (list bool)) (s : string) : outcome json :=
  match plans with
  | [] =>
      Raise (Exn JSONDecodeError "Expecting value: line 1 column 1 (char 0)")
  | flags :: rest =>
      if String.eqb s (plan_text flags) then Ok (plan_value flags)
      else decode_among rest s
  end.

#[local] Instance toy : Collaborators := {|
  World := ToyWorld;
  llm_generate := fun _ _ _ w => (reply w, w);
  json_loads := decode_among known_plans;
  now_isoformat := fun w =>
    ("2024-01-01T00:00:00",
     {| reply := reply w; ticks := S (ticks w); file := file w |});
  write_document := fun d w =>
    {| reply := reply w; ticks := ticks w; file := Some d |};
  py_str := type_name
|}.

Definition echo : capability :=
  fun kwargs w =>
    match kwargs with
    | [("task", JStr task)] => (Ok task, w)
    | _ => (Raise (Exn TypeError
                     "echo() missing 1 required positional argument: 'task'"),
            w)
    end.

Definition toy_registry : Registry := register "echo" echo [].

(** A fresh process whose model will answer [r]. *)
Definition fresh (r : outcome string) : State :=
  {| data := ∅;
     world := {| reply := r; ticks := O; file := None |};
     events := [] |}.

(** The same with some history already in memory. *)
Definition with_history (r : outcome string) (goal : string)
           (entries : list MemoryEntry) : State :=
  {| data := {[ goal := entries ]};
     world := {| reply := r; ticks := O; file := None |};
     events := [] |}.

(** What [_validate_steps] makes of [plan_value flags]. *)
Definition validated_plan (flags : list bool) : list json :=
  map (fun ok : bool => if ok then good_step else bad_step_validated) flags.

Definition past (step : json) (result : string) : MemoryEntry :=
  {| entry_step := step; entry_result := result;
     entry_timestamp := "2023-12-31T23:59:59" |}.

End Demo.

(** ** Statements of the specification, written from its words

    These are not taken from the code; the theorems below compare them with
    the definitions above. *)

Section SpecWords.
Context `{Collaborators}.

(** "The last [n] entries (tail of the sequence)": none when [n <= 0]. *)
Definition spec_last_entries {A : Type} (n : Z) (l : list A) : list A :=
  skipn (length l - Z.to_nat n)%nat l.

(** "- <action>: <result>", the result cut to 200 characters and followed
    by an ellipsis when longer. *)
Definition spec_context_line (entry : MemoryEntry) : outcome string :=
  match py_get (entry_step entry) "action" (JStr "unknown") with
  | Ok action =>
      Ok ("- " +:+ format_value action +:+ ": "
               +:+ (if 200 <? PyStr.len (entry_result entry)
                    then PyStr.take 200 (entry_result entry) +:+ "..."
                    else entry_result entry))
  | Raise e => Raise e
  end.

Fixpoint spec_context_lines (entries : list MemoryEntry)
  : outcome (list string) :=
  match entries with
  | [] => Ok []
  | entry :: rest =>
      match spec_context_line entry, spec_context_lines rest with
      | Ok line, Ok lines => Ok (line :: lines)
      | Raise e, _ => Raise e
      | _, Raise e => Raise e
      end
  end.

(** The sentinel for an empty or absent bucket, otherwise one line for each
    of the last [max_entries] entries. *)
Definition spec_recent_context (goal : string) (max_entries : Z) (st : State)
  : outcome string :=
  match retrieve goal st with
  | [] => Ok "No prior context available."
  | entries =>
      match spec_context_lines (spec_last_entries max_entries entries) with
      | Ok lines => Ok (PyStr.join PyStr.nl lines)
      | Raise e => Raise e
      end
  end.

(** "A structured object containing a non-empty [action] field naming a
    currently registered skill." *)
Definition spec_keeps (available_skills : list string) (step : json) : bool :=
  match step with
  | JObj fields =>
      match dict_get "action" fields with
      | Some (JStr name) =>
          negb (String.eqb name "") && existsb (String.eqb name) available_skills
      | _ => false
      end
  | _ => false
  end.

(** "Coerce a missing or non-object [params] field to an empty mapping." *)
Definition spec_coerce_params (step : json) : json :=
  match step with
  | JObj fields =>
      match dict_get "params" fields with
      | Some (JObj _) => step
      | _ => JObj (dict_set "params" (JObj []) fields)
      end
  | _ => step
  end.

(** A step a plan may hold: an object with an [action]. *)
Definition has_action (step : json) : Prop :=
  exists fields action,
    step = JObj fields /\ dict_get "action" fields = Some action.

(** "successfulSteps": what [_execute_step] returned for each of [steps],
    run one after the other, each in the state the one before left; the
    successful steps are those for which it returned [True]. *)
Fixpoint step_outcomes (registry : Registry) (goal : string)
         (steps : list json) : M State (list bool) :=
  match steps with
  | [] => mret []
  | step :: rest =>
      success ← _execute_step registry goal step;
      outcomes ← step_outcomes registry goal rest;
      mret (success :: outcomes)
  end.

Definition successful_steps (outcomes : list bool) : Z :=
  Z.of_nat (length (List.filter (fun success : bool => success) outcomes)).

End SpecWords.

(** ** Further functions of the same modules *)

Section Further.
Context `{Collaborators}.

(** *** skills/__init__.py: loading and reloading *)

(** [_load_skills].  [imported] is the outcome of the two [import]
    statements, which come before any [register]: the two skill functions,
    or the exception the first failing one raised.  Only an [ImportError] is
    swallowed. *)
Definition _load_skills (imported : outcome (capability * capability))
           (self : Registry) : outcome Registry :=
  match imported with
  | Ok (generate_task_code, trace_variable_flow) =>
      Ok (register "trace_variable_flow" trace_variable_flow
            (register "generate_task_code" generate_task_code self))
  | Raise e =>
      match exn_kind e with
      | ImportError => Ok self
      | _ => Raise e
      end
  end.

(** [reload_skills]: [self.registry.clear()], then [_load_skills]. *)
Definition reload_skills (imported : outcome (capability * capability))
           (self : Registry) : outcome Registry :=
  _load_skills imported [].

(** *** core/memory.py: statistics *)

(** [{"total_goals": ..., "total_entries": ...}] *)
Record Stats : Type := { total_goals : Z; total_entries : Z }.

(** [sum(len(entries) for entries in self.data.values())] *)
Definition count_entries (d : gmap string (list MemoryEntry)) : Z :=
  map_fold (fun _ entries acc => Z.of_nat (length entries) + acc) 0 d.

Definition get_stats (st : State) : Stats :=
  {| total_goals := Z.of_nat (size (data st));
     total_entries := count_entries (data st) |}.

(** *** core/agent_loop.py: clearing *)

(** [clear_agent_memory(goal)], where [goal] is [None] or a [str]; the test
    [if goal:] fails for [None] and for the empty string, and the other
    branch only logs. *)
Definition clear_agent_memory (goal : option string) : M State unit :=
  match goal with
  | Some g => if negb (String.eqb g "") then clear_goal g else mret tt
  | None => mret tt
  end.

(** *** llms/mistral_runner.py *)

Definition mock_plan_text : string :=
  PyStr.join PyStr.nl
    [ "[";
      "    " +:+ sample_step1 "generate_task_code" "task"
                   "improve error handling" +:+ ",";
      "    " +:+ sample_step1 "trace_variable_flow" "file" "patch_engine.py";
      "]" ].

Definition _mock_response (prompt : string) : string :=
  if PyStr.contains "plan" (PyStr.lower prompt)
     || PyStr.contains "steps" (PyStr.lower prompt)
  then mock_plan_text
  else "This is a mock response from Mistral LLM. Please configure a valid model path.".

(** [MistralLLM.generate].  [model] is [self.model]: [None], or the loaded
    model, called with the prompt, [max_new_tokens] and [temperature]. *)
Definition generate
           (model : option (string -> Z -> Q -> World -> outcome string * World))
           (prompt : string) (max_tokens : Z) (temperature : Q) (w : World)
  : string * World :=
  match model with
  | None => (_mock_response prompt, w)
  | Some run =>
      match run prompt max_tokens temperature w with
      | (Ok response, w') => (PyStr.strip response, w')
      | (Raise _, w') => (_mock_response prompt, w')
      end
  end.

(** *** skills/generate_task_code.py *)

Definition code_placeholder : string :=
  "# Generated code placeholder" +:+ PyStr.nl +:+ "pass".

Definition _clean_code_response (response : string) : string :=
  let response := PyStr.strip response in
  let response :=
    if PyStr.startswith "```python" response
    then PyStr.slice response 9 (PyStr.len response)
    else if PyStr.startswith "```" response
         then PyStr.slice response 3 (PyStr.len response)
         else response in
  let response :=
    if PyStr.endswith "```" response
    then PyStr.slice response 0 (-3)
    else response in
  let response := PyStr.strip response in
  if PyStr.len response <? 10 then code_placeholder else response.

End Further.

(** ** A process without a model

    What [json.loads] makes of the mock plan of [llms/mistral_runner.py],
    and a process whose [MistralLLM] has no model loaded. *)

Module NoModel.

Definition mock_plan : list json :=
  [ JObj [("action", JStr "generate_task_code");
          ("params", JObj [("task", JStr "improve error handling")])];
    JObj [("action", JStr "trace_variable_flow");
          ("params", JObj [("file", JStr "patch_engine.py")])] ].

Definition decode (s : string) : outcome json :=
  if String.eqb s mock_plan_text then Ok (JArr mock_plan)
  else Raise (Exn JSONDecodeError "Expecting value: line 1 column 1 (char 0)").

#[local] Instance mock : Collaborators := {|
  World := unit;
  llm_generate := fun prompt _ _ w => (Ok (_mock_response prompt), w);
  json_loads := decode;
  now_isoformat := fun w => ("2024-01-01T00:00:00", w);
  write_document := fun _ w => w;
  py_str := type_name
|}.

Definition done : capability := fun _ w => (Ok "done", w).

Definition both_skills : Registry :=
  register "trace_variable_flow" done (register "generate_task_code" done []).

Definition start : State := {| data := ∅; world := tt; events := [] |}.

End NoModel.

(** ** A decoder with a recursion limit *)

Module Nested.

(** The number of "[" a text opens with. *)
Fixpoint depth (s : string) : nat :=
  match s with
  | String c s' => if Ascii.eqb c "[" then S (depth s') else O
  | EmptyString => O
  end.

(** [c * n] *)
Fixpoint times (c : ascii) (n : nat) : string :=
  match n with
  | O => EmptyString
  | S n' => String c (times c n')
  end.

(** A decoder that knows the empty array and gives up beyond 1000 levels
    of nesting, as [json.loads] does at the recursion limit. *)
Definition decode (s : string) : outcome json :=
  if (1000 <? depth s)%nat
  then Raise (Exn RuntimeError
                "maximum recursion depth exceeded while decoding a JSON array from a unicode string")
  else if String.eqb s "[]" then Ok (JArr [])
  else Raise (Exn JSONDecodeError "Expecting value: line 1 column 1 (char 0)").

#[local] Instance limited : Collaborators := {|
  World := unit;
  llm_generate := fun _ _ _ w => (Ok "[]", w);
  json_loads := decode;
  now_isoformat := fun w => ("2024-01-01T00:00:00", w);
  write_document := fun _ w => w;
  py_str := type_name
|}.

End Nested.

(** ** The registry as a dictionary of objects

    [register] stores the object it is given as it is: its annotation
    [func: Callable] is not checked, so a slot can hold [None], and
    [resolve] hands back whatever the slot holds.  In this reading a slot is
    [None] or a callable; [Registry] above is the case where every slot
    holds a callable. *)

Module Untyped.
Section Objects.
Context `{Collaborators}.

Definition Registry : Type := list (string * option capability).

Definition register (name : string) (func : option capability)
           (self : Registry) : Registry :=
  dict_set name func self.

Definition resolve (self : Registry) (name : json)
  : outcome (option capability) :=
  match name with
  | JStr s =>
      match dict_get s self with
      | None =>
          Raise (Exn ValueError ("Skill '" +:+ s +:+ "' not found in registry"))
      | Some func => Ok func
      end
  | JArr _ | JObj _ =>
      Raise (Exn TypeError ("unhashable type: '" +:+ type_name name +:+ "'"))
  | _ =>
      Raise (Exn ValueError
               ("Skill '" +:+ py_str name +:+ "' not found in registry"))
  end.

Variable registry : Registry.

Definition resolve_skill (action : json) : M State (option capability) :=
  emit (EvResolve action);;
  lift (resolve registry action).

Definition execute_attempt (goal : string) (step action params : json)
  : M State bool :=
  skill_func ← resolve_skill action;
  match skill_func with
  | None => mret false
  | Some func =>
      result ← invoke func action params;
      store goal step result;;
      mret true
  end.

Definition _execute_step (goal : string) (step : json) : M State bool :=
  action ← lift (py_get step "action" JNull);
  params ← lift (py_get step "params" (JObj []));
  try_except
    (execute_attempt goal step action params)
    (fun e =>
       let error_msg := "Error: " +:+ exn_str e in
       store goal step error_msg;;
       mret false).

End Objects.
End Untyped.

(** A registry of callables, read as a dictionary of objects. *)
Definition as_objects `{Collaborators} (self : Registry) : Untyped.Registry :=
  map (fun slot => (slot.1, Some slot.2)) self.

(** No slot of the registry holds [None]. *)
Definition holds_callables `{Collaborators} (self : Untyped.Registry) : Prop :=
  forall name, dict_get name self <> Some None.

(** * Properties *)

(** ** Memory store *)

Section MemoryFacts.
Context `{Collaborators}.

(** What [store] computes, in one equation. *)
Lemma store_unfold (goal : string) (step : json) (result : string) (st : State) :
  store goal step result st =
    (Ok tt,
     {| data := <[goal := retrieve goal st
                          ++ [ {| entry_step := step; entry_result := result;
                                  entry_timestamp := (now_isoformat (world st)).1 |} ]]>
                  (data st);
        world := write_document
                   (<[goal := retrieve goal st
                          ++ [ {| entry_step := step; entry_result := result;
                                  entry_timestamp := (now_isoformat (world st)).1 |} ]]>
                      (data st))
                   (now_isoformat (world st)).2;
        events := events st ++ [EvStore goal step result] |}).
Proof.
  unfold store, _save, retrieve.
  destruct (now_isoformat (world st)) as [timestamp w]. reflexivity.
Qed.

Lemma retrieve_store_same (goal : string) (step : json) (result : string)
      (st : State) :
  retrieve goal (store goal step result st).2 =
    retrieve goal st
      ++ [ {| entry_step := step; entry_result := result;
              entry_timestamp := (now_isoformat (world st)).1 |} ].
Proof.
  rewrite store_unfold. unfold retrieve at 1. simpl.
  by rewrite lookup_insert_eq.
Qed.

Lemma retrieve_store_other (goal other : string) (step : json)
      (result : string) (st : State) :
  other ≠ goal ->
  retrieve other (store goal step result st).2 = retrieve other st.
Proof.
  intros Hne. rewrite store_unfold. unfold retrieve. simpl.
  by rewrite lookup_insert_ne.
Qed.

(** C4. After [store(goal, step, result)] the bucket of [goal] is the old
    bucket followed by one entry holding exactly that step and that result,
    so this entry is the last one [retrieve(goal)] returns and the earlier
    entries keep their content and order; the bucket of every other goal
    is unchanged.  [store] itself does not raise. *)
Theorem store_then_retrieve (goal : string) (step : json) (result : string)
        (st : State) :
  (store goal step result st).1 = Ok tt
  /\ (exists timestamp,
        retrieve goal (store goal step result st).2 =
          retrieve goal st
            ++ [ {| entry_step := step; entry_result := result;
                    entry_timestamp := timestamp |} ]
        /\ last (retrieve goal (store goal step result st).2) =
             Some {| entry_step := step; entry_result := result;
                     entry_timestamp := timestamp |})
  /\ (forall other, other ≠ goal ->
        retrieve other (store goal step result st).2 = retrieve other st).
Proof.
  split; [by rewrite store_unfold |].
  split.
  - exists (now_isoformat (world st)).1.
    rewrite retrieve_store_same. split; [done |].
    by rewrite last_snoc.
  - intros other Hne. by apply retrieve_store_other.
Qed.

Lemma clear_goal_absent (goal : string) (st : State) :
  data st !! goal = None -> clear_goal goal st = (Ok tt, st).
Proof. intros Hnone. unfold clear_goal. by rewrite Hnone. Qed.

Lemma clear_goal_data (goal : string) (st : State) :
  data (clear_goal goal st).2 = delete goal (data st).
Proof.
  unfold clear_goal, _save.
  destruct (data st !! goal) as [bucket|] eqn:Hlook; simpl; [done |].
  symmetry. by apply delete_id.
Qed.

(** C9. [clear_goal(goal)] does not raise and leaves no entry for [goal];
    on a goal with no bucket it changes nothing at all, and so does a
    second call right after a first one. *)
Theorem clear_goal_then_retrieve (goal : string) (st : State) :
  (clear_goal goal st).1 = Ok tt
  /\ retrieve goal (clear_goal goal st).2 = []
  /\ (data st !! goal = None -> clear_goal goal st = (Ok tt, st))
  /\ clear_goal goal (clear_goal goal st).2 = (Ok tt, (clear_goal goal st).2).
Proof.
  split; [| split; [| split]].
  - unfold clear_goal, _save. by destruct (data st !! goal).
  - unfold retrieve. rewrite clear_goal_data. by rewrite lookup_delete_eq.
  - apply clear_goal_absent.
  - apply clear_goal_absent. rewrite clear_goal_data.
    apply lookup_delete_eq.
Qed.

End MemoryFacts.

(** ** Recent context *)

Section RecentContext.
Context `{Collaborators}.

Lemma preview_spec (s : string) :
  PyStr.preview s =
    if 200 <? PyStr.len s then PyStr.take 200 s +:+ "..." else s.
Proof.
  unfold PyStr.preview.
  destruct (200 <? PyStr.len s) eqn:Hlong; [| done].
  apply Z.ltb_lt in Hlong.
  unfold PyStr.slice, PyStr.clamp. simpl (0 <? 0). simpl (200 <? 0).
  rewrite Z.min_l by lia.
  rewrite Z.min_l by lia.
  reflexivity.
Qed.

Lemma context_part_spec (entry : MemoryEntry) :
  context_part entry = spec_context_line entry.
Proof.
  unfold context_part, spec_context_line.
  destruct (py_get (entry_step entry) "action" (JStr "unknown")); [| done].
  by rewrite preview_spec.
Qed.

Lemma context_parts_spec (entries : list MemoryEntry) :
  context_parts entries = spec_context_lines entries.
Proof.
  induction entries as [| entry rest IH]; [done |].
  simpl. rewrite context_part_spec, IH.
  destruct (spec_context_line entry), (spec_context_lines rest); done.
Qed.

Lemma slice_tail_positive {A : Type} (l : list A) (n : Z) :
  0 < n -> list_slice_from l (- n) = spec_last_entries n l.
Proof.
  intros Hpos. unfold list_slice_from, spec_last_entries, PyStr.clamp.
  replace (- n <? 0) with true by (symmetry; apply Z.ltb_lt; lia).
  f_equal. lia.
Qed.

(** For a positive [max_entries] the digest is the one the specification
    describes. *)
Lemma get_recent_context_positive (goal : string) (max_entries : Z)
      (st : State) :
  0 < max_entries ->
  get_recent_context goal max_entries st
  = spec_recent_context goal max_entries st.
Proof.
  intros Hpos. unfold get_recent_context, spec_recent_context.
  destruct (retrieve goal st) as [| entry rest] eqn:Hbucket; [done |].
  by rewrite slice_tail_positive, context_parts_spec.
Qed.

(** The sentinel for an empty or absent bucket, whatever [max_entries]. *)
Lemma get_recent_context_empty (goal : string) (max_entries : Z) (st : State) :
  retrieve goal st = [] ->
  get_recent_context goal max_entries st = Ok "No prior context available.".
Proof. intros Hempty. unfold get_recent_context. by rewrite Hempty. Qed.

(** With [max_entries = 0] the slice [entries[-0:]] is the whole list. *)
Lemma get_recent_context_zero (goal : string) (st : State) :
  get_recent_context goal 0 st
  = get_recent_context goal (Z.of_nat (length (retrieve goal st))) st.
Proof.
  unfold get_recent_context.
  destruct (retrieve goal st) as [| entry rest] eqn:Hbucket; [done |].
  assert (Hsame : list_slice_from (entry :: rest) (- 0)
                  = list_slice_from (entry :: rest)
                      (- Z.of_nat (length (entry :: rest)))).
  { unfold list_slice_from, PyStr.clamp.
    replace (- Z.of_nat (length (entry :: rest)) <? 0) with true
      by (symmetry; apply Z.ltb_lt; simpl length; lia).
    change (- 0 <? 0) with false. cbv iota. f_equal. lia. }
  by rewrite Hsame.
Qed.

End RecentContext.

(** C7. With two entries stored for a goal and [max_entries = 0],
    [get_recent_context] returns a line for each of the two entries, whereas
    the last zero entries make no line at all. *)
Theorem get_recent_context_zero_returns_all :
  get_recent_context "demo" 0
    (Demo.with_history (Ok "") "demo"
       [Demo.past Demo.good_step "first"; Demo.past Demo.good_step "second"])
  = Ok ("- echo: first" +:+ PyStr.nl +:+ "- echo: second")
  /\ spec_recent_context "demo" 0
       (Demo.with_history (Ok "") "demo"
          [Demo.past Demo.good_step "first"; Demo.past Demo.good_step "second"])
     = Ok "".
Proof. split; vm_compute; reflexivity. Qed.

(** ** Skill registry *)

Section RegistryFacts.
Context `{Collaborators}.

Lemma resolve_cases (self : Registry) (name : json) :
  (exists s func,
      name = JStr s /\ dict_get s self = Some func
      /\ resolve self name = Ok (Some func))
  \/ (exists e, resolve self name = Raise e).
Proof.
  destruct name as [| b | z | f | s | items | fields]; simpl;
    try (right; eexists; reflexivity).
  destruct (dict_get s self) as [func |] eqn:Hlook.
  - left. by exists s, func.
  - right. eexists. reflexivity.
Qed.

Lemma resolve_not_none (self : Registry) (name : json) :
  resolve self name <> Ok None.
Proof.
  destruct (resolve_cases self name) as [(s & func & _ & _ & Hres) | [e Hres]];
    rewrite Hres; discriminate.
Qed.

(** The [try] block of [_execute_step] ends with [True] or with an
    exception. *)
Lemma execute_attempt_not_false (registry : Registry) (goal : string)
      (step action params : json) (st : State) :
  (execute_attempt registry goal step action params st).1 <> Ok false.
Proof.
  unfold execute_attempt, resolve_skill, mbind, M_bind, emit, lift. simpl.
  destruct (resolve_cases registry action)
    as [(s & func & _ & _ & Hres) | [e Hres]]; rewrite Hres; [| discriminate].
  unfold invoke.
  destruct params as [| b | z | f | p | items | kwargs];
    try (unfold raise; simpl; discriminate).
  unfold mbind, M_bind, emit, on_world_raising. simpl.
  destruct (func kwargs (world st)) as [[result | e] w]; [| discriminate].
  rewrite store_unfold. simpl. discriminate.
Qed.

(** *** The registry as a dictionary of objects *)

Lemma dict_get_as_objects (self : Registry) (s : string) :
  dict_get s (as_objects self) = option_map Some (dict_get s self).
Proof.
  induction self as [| [k func] self IH]; [reflexivity |].
  simpl. by destruct (String.eqb s k).
Qed.

Lemma as_objects_holds_callables (self : Registry) :
  holds_callables (as_objects self).
Proof.
  intros s. rewrite dict_get_as_objects. by destruct (dict_get s self).
Qed.

Lemma dict_get_dict_set {V : Type} (k k' : string) (v : V)
      (d : list (string * V)) :
  dict_get k (dict_set k' v d)
  = if String.eqb k k' then Some v else dict_get k d.
Proof.
  induction d as [| [k0 v0] d IH]; simpl.
  - by destruct (String.eqb k k').
  - destruct (String.eqb_spec k' k0) as [-> | Hne]; simpl.
    + by destruct (String.eqb k k0).
    + rewrite IH. destruct (String.eqb_spec k k0) as [-> | Hne'];
        [| reflexivity].
      by rewrite (proj2 (String.eqb_neq k0 k')).
Qed.

Lemma register_holds_callables (name : string) (func : capability)
      (self : Untyped.Registry) :
  holds_callables self ->
  holds_callables (Untyped.register name (Some func) self).
Proof.
  intros Hself s. unfold Untyped.register. rewrite dict_get_dict_set.
  destruct (String.eqb s name); [discriminate | apply Hself].
Qed.

(** On a registry of callables the two readings of [resolve] and of
    [_execute_step] agree. *)
Lemma resolve_as_objects (self : Registry) (name : json) :
  Untyped.resolve (as_objects self) name = resolve self name.
Proof.
  destruct name as [| b | z | f | s | items | fields]; try reflexivity.
  simpl. rewrite dict_get_as_objects. by destruct (dict_get s self).
Qed.

Lemma execute_attempt_as_objects (self : Registry) (goal : string)
      (step action params : json) (st : State) :
  Untyped.execute_attempt (as_objects self) goal step action params st
  = execute_attempt self goal step action params st.
Proof.
  unfold Untyped.execute_attempt, execute_attempt,
    Untyped.resolve_skill, resolve_skill, mbind, M_bind, emit, lift.
  simpl. by rewrite resolve_as_objects.
Qed.

Lemma execute_step_as_objects (self : Registry) (goal : string) (step : json)
      (st : State) :
  Untyped._execute_step (as_objects self) goal step st
  = _execute_step self goal step st.
Proof.
  unfold Untyped._execute_step, _execute_step, mbind, M_bind, lift.
  destruct (py_get step "action" JNull) as [action | e]; [| reflexivity].
  destruct (py_get step "params" (JObj [])) as [params | e]; [| reflexivity].
  unfold try_except. by rewrite execute_attempt_as_objects.
Qed.

Lemma untyped_resolve_cases (self : Untyped.Registry) (name : json) :
  (exists s obj,
      name = JStr s /\ dict_get s self = Some obj
      /\ Untyped.resolve self name = Ok obj)
  \/ (exists e, Untyped.resolve self name = Raise e).
Proof.
  destruct name as [| b | z | f | s | items | fields]; simpl;
    try (right; eexists; reflexivity).
  destruct (dict_get s self) as [obj |] eqn:Hlook.
  - left. by exists s, obj.
  - right. eexists. reflexivity.
Qed.

Lemma untyped_resolve_none (self : Untyped.Registry) (name : json) :
  Untyped.resolve self name = Ok None
  <-> exists s, name = JStr s /\ dict_get s self = Some None.
Proof.
  split.
  - intros Hnone.
    destruct (untyped_resolve_cases self name)
      as [(s & obj & -> & Hlook & Hres) | [e Hres]]; [| congruence].
    exists s. split; [reflexivity |]. congruence.
  - intros (s & -> & Hlook). simpl. by rewrite Hlook.
Qed.

(** With callables in every slot, the [try] block of [_execute_step] ends
    with [True] or with an exception. *)
Lemma untyped_attempt_not_false (registry : Untyped.Registry) (goal : string)
      (step action params : json) (st : State) :
  holds_callables registry ->
  (Untyped.execute_attempt registry goal step action params st).1 <> Ok false.
Proof.
  intros Hcallables.
  unfold Untyped.execute_attempt, Untyped.resolve_skill,
    mbind, M_bind, emit, lift. simpl.
  destruct (untyped_resolve_cases registry action)
    as [(s & obj & _ & Hlook & Hres) | [e Hres]]; rewrite Hres;
    [| discriminate].
  destruct obj as [func |]; [| by destruct (Hcallables s)].
  unfold invoke.
  destruct params as [| b | z | f | p | items | kwargs];
    try (unfold raise; simpl; discriminate).
  unfold mbind, M_bind, emit, on_world_raising. simpl.
  destruct (func kwargs (world st)) as [[result | e] w]; [| discriminate].
  rewrite store_unfold. simpl. discriminate.
Qed.

(** C10 (amended). [resolve] returns the object registered under the name
    or raises: it returns [None] exactly when [None] itself is what was
    registered under that name.  As long as every slot holds a callable,
    which registering callables preserves and which is the registry of the
    other sections, [resolve] never returns [None]; the [try] block of
    [_execute_step] then never ends with [False] (only its [is None] branch
    would), and every [False] of [_execute_step] comes from the handler,
    after the error text has been stored. *)
Theorem resolve_none_iff_registered (registry : Untyped.Registry)
        (name : json) (goal : string) (step action params : json)
        (st : State) :
  ((exists s obj,
       name = JStr s /\ dict_get s registry = Some obj
       /\ Untyped.resolve registry name = Ok obj)
   \/ (exists e, Untyped.resolve registry name = Raise e))
  /\ (Untyped.resolve registry name = Ok None
      <-> exists s, name = JStr s /\ dict_get s registry = Some None)
  /\ (holds_callables registry ->
      Untyped.resolve registry name <> Ok None
      /\ (Untyped.execute_attempt registry goal step action params st).1
         <> Ok false
      /\ (forall st',
            Untyped._execute_step registry goal step st = (Ok false, st') ->
            exists e,
              last (events st')
              = Some (EvStore goal step ("Error: " +:+ exn_str e))))
  /\ (holds_callables registry ->
      forall other func,
        holds_callables (Untyped.register other (Some func) registry))
  /\ (forall typed : Registry,
        holds_callables (as_objects typed)
        /\ Untyped.resolve (as_objects typed) name = resolve typed name
        /\ Untyped._execute_step (as_objects typed) goal step st
           = _execute_step typed goal step st).
Proof.
  split; [apply untyped_resolve_cases |].
  split; [apply untyped_resolve_none |].
  split; [| split].
  - intros Hcallables. split; [| split].
    + intros Hnone. apply untyped_resolve_none in Hnone as (s & _ & Hlook).
      by destruct (Hcallables s).
    + by apply untyped_attempt_not_false.
    + intros st'. unfold Untyped._execute_step, mbind, M_bind, lift.
      destruct (py_get step "action" JNull) as [act | e0]; [| discriminate].
      destruct (py_get step "params" (JObj [])) as [par | e0];
        [| discriminate].
      unfold try_except.
      pose proof (untyped_attempt_not_false registry goal step act par st
                    Hcallables) as Hnf.
      destruct (Untyped.execute_attempt registry goal step act par st)
        as [[b | e] st1].
      * intros Heq. injection Heq as Hb _. subst b. by destruct Hnf.
      * rewrite store_unfold. unfold mret, M_ret. simpl.
        intros Heq. injection Heq as <-. exists e. simpl.
        by rewrite last_snoc.
  - intros Hcallables other func. by apply register_holds_callables.
  - intros typed. split; [apply as_objects_holds_callables |].
    split; [apply resolve_as_objects | apply execute_step_as_objects].
Qed.

End RegistryFacts.

(** ** Planner *)

Section PlannerFacts.
Context `{Collaborators}.

Lemma validate_step_spec (step : json) (available_skills : list string) :
  validate_step step available_skills
  = if spec_keeps available_skills step
    then Some (spec_coerce_params step) else None.
Proof.
  destruct step as [| b | z | f | s | items | fields]; try reflexivity.
  unfold validate_step, spec_keeps, spec_coerce_params.
  destruct (dict_get "action" fields) as [action |]; [| reflexivity].
  destruct action as [| b | z | f | name | items | fs]; simpl;
    try reflexivity.
  - by destruct b.
  - by destruct (z =? 0).
  - by destruct f.
  - destruct (String.eqb name ""); simpl; [reflexivity |].
    destruct (existsb (String.eqb name) available_skills); simpl;
      [| reflexivity].
    destruct (dict_get "params" fields) as [params |]; [| reflexivity].
    by destruct params.
  - by destruct items.
  - by destruct fs.
Qed.

Lemma validate_steps_filter (steps : list json) (available_skills : list string) :
  _validate_steps steps available_skills
  = map spec_coerce_params (List.filter (spec_keeps available_skills) steps).
Proof.
  induction steps as [| step rest IH]; [reflexivity |].
  simpl. rewrite validate_step_spec, IH.
  by destruct (spec_keeps available_skills step).
Qed.

(** C6. [_validate_steps] keeps exactly the candidates that are objects
    whose [action] is a non-empty string naming a skill of the list, in
    their order, each with [params] replaced by an empty mapping when it is
    missing or not an object; a valid step next to one that is not valid
    validates to the valid step alone. *)
Theorem validate_steps_keeps_valid (steps : list json)
        (available_skills : list string) :
  _validate_steps steps available_skills
  = map spec_coerce_params (List.filter (spec_keeps available_skills) steps)
  /\ (forall valid invalid,
        spec_keeps available_skills valid = true ->
        spec_keeps available_skills invalid = false ->
        _validate_steps [valid; invalid] available_skills
        = [spec_coerce_params valid]
        /\ _validate_steps [invalid; valid] available_skills
           = [spec_coerce_params valid]).
Proof.
  split; [apply validate_steps_filter |].
  intros valid invalid Hvalid Hinvalid.
  rewrite !validate_steps_filter. simpl.
  by rewrite Hvalid, Hinvalid.
Qed.

End PlannerFacts.

Lemma validate_steps_keeps_valid_witness :
  spec_keeps ["echo"] Demo.bad_step = true
  /\ spec_keeps ["echo"] Demo.unknown_step = false
  /\ _validate_steps [Demo.bad_step; Demo.unknown_step] ["echo"]
     = [Demo.bad_step_validated].
Proof.
  split; [reflexivity |]. split; [reflexivity |].
  apply (validate_steps_keeps_valid [] ["echo"]); reflexivity.
Defined.

Lemma resolve_none_iff_registered_witness :
  (forall name, dict_get name (as_objects Demo.toy_registry) <> Some None)
  /\ Untyped.resolve (as_objects Demo.toy_registry) (JStr "echo") <> Ok None
  /\ exists e,
       last (events (Untyped._execute_step (as_objects Demo.toy_registry)
                       "demo" Demo.bad_step_validated
                       (Demo.fresh (Ok ""))).2)
       = Some (EvStore "demo" Demo.bad_step_validated
                       ("Error: " +:+ exn_str e)).
Proof.
  assert (Hcallables : holds_callables (as_objects Demo.toy_registry)).
  { intros name. simpl. destruct (String.eqb name "echo"); discriminate. }
  destruct (resolve_none_iff_registered
              (as_objects Demo.toy_registry) (JStr "echo") "demo"
              Demo.bad_step_validated JNull JNull (Demo.fresh (Ok "")))
    as (_ & _ & Hsafe & _).
  destruct (Hsafe Hcallables) as (Hnot_none & _ & Hfalse).
  split; [exact Hcallables |]. split; [exact Hnot_none |].
  apply Hfalse. vm_compute. reflexivity.
Defined.

(** C10, as first stated, fails: [register] takes any object, and once
    [None] is registered [resolve] returns it; [_execute_step] then takes
    its [is None] branch and returns [False] with nothing stored. *)
Lemma resolve_none_registered_counterexample :
  @Untyped.resolve Demo.toy (Untyped.register "broken" None []) (JStr "broken")
  = Ok None
  /\ @Untyped._execute_step Demo.toy (Untyped.register "broken" None [])
        "demo" (JObj [("action", JStr "broken"); ("params", JObj [])])
        (Demo.fresh (Ok ""))
     = (Ok false,
        {| data := data (Demo.fresh (Ok ""));
           world := world (Demo.fresh (Ok ""));
           events := [EvResolve (JStr "broken")] |}).
Proof. split; vm_compute; reflexivity. Qed.

Section FallbackFacts.
Context `{Collaborators}.

Lemma fallback_plan_two (goal : string) :
  PyStr.contains "patch" (PyStr.lower goal) = true
  \/ PyStr.contains "improve" (PyStr.lower goal) = true ->
  _get_fallback_plan goal
  = [ fallback_step "generate_task_code" [("task", JStr goal)];
      fallback_step "trace_variable_flow" [("file", JStr "patch_engine.py")] ].
Proof.
  intros Hkey. unfold _get_fallback_plan.
  destruct Hkey as [Hkey | Hkey]; rewrite Hkey; [reflexivity |].
  by rewrite orb_true_r.
Qed.

Lemma fallback_plan_one (goal : string) :
  PyStr.contains "patch" (PyStr.lower goal) = false ->
  PyStr.contains "improve" (PyStr.lower goal) = false ->
  _get_fallback_plan goal
  = [ fallback_step "generate_task_code" [("task", JStr goal)] ].
Proof.
  intros Hpatch Himprove. unfold _get_fallback_plan.
  by rewrite Hpatch, Himprove.
Qed.

(** A text without an opening bracket holds no plan. *)
Lemma parse_unavailable_response :
  exists e,
    _parse_plan_response "Error: Unable to generate response" = Raise e.
Proof. eexists. vm_compute. reflexivity. Qed.

(** When the model itself fails, [call_model] answers with its fixed error
    text, which does not parse, and the planner falls back. *)
Lemma plan_steps_model_failure (registry : Registry)
      (goal prior_context : string) (st : State) (e : exn) (w : World) :
  llm_generate (plan_prompt goal prior_context
                  (_format_skills_description (list_skills registry)))
               1024 (3 # 10)%Q (world st) = (Raise e, w) ->
  plan_steps registry goal prior_context st
  = (Ok (_get_fallback_plan goal),
     {| data := data st; world := w; events := events st |}).
Proof.
  intros Hfail.
  unfold plan_steps, try_except, plan_attempt, mbind, M_bind, on_world,
    call_model, lift.
  simpl. rewrite Hfail.
  destruct parse_unavailable_response as [e' Hparse]. by rewrite Hparse.
Qed.

(** C1 (amended). Whenever the [try] block of [plan_steps] raises,
    [plan_steps] returns the fallback plan: the [generate_task_code] step
    followed by the [trace_variable_flow] step when the lower-cased goal
    contains "patch" or "improve", and the [generate_task_code] step alone
    otherwise. *)
Theorem plan_steps_fallback (registry : Registry)
        (goal prior_context : string) (st st' : State) (e : exn) :
  plan_attempt (plan_prompt goal prior_context
                  (_format_skills_description (list_skills registry)))
               (list_skills registry) st = (Raise e, st') ->
  plan_steps registry goal prior_context st
  = (Ok (_get_fallback_plan goal), st')
  /\ (PyStr.contains "patch" (PyStr.lower goal) = true
      \/ PyStr.contains "improve" (PyStr.lower goal) = true ->
      _get_fallback_plan goal
      = [ fallback_step "generate_task_code" [("task", JStr goal)];
          fallback_step "trace_variable_flow"
                        [("file", JStr "patch_engine.py")] ])
  /\ (PyStr.contains "patch" (PyStr.lower goal) = false ->
      PyStr.contains "improve" (PyStr.lower goal) = false ->
      _get_fallback_plan goal
      = [ fallback_step "generate_task_code" [("task", JStr goal)] ]).
Proof.
  intros Hraise. split; [| split].
  - unfold plan_steps, try_except. by rewrite Hraise.
  - apply fallback_plan_two.
  - apply fallback_plan_one.
Qed.

End FallbackFacts.

Lemma plan_steps_fallback_witness :
  plan_steps Demo.toy_registry "Improve the parser" "" (Demo.fresh (Ok "no plan"))
  = (Ok [ fallback_step "generate_task_code"
                        [("task", JStr "Improve the parser")];
          fallback_step "trace_variable_flow"
                        [("file", JStr "patch_engine.py")] ],
     Demo.fresh (Ok "no plan")).
Proof.
  destruct (@plan_steps_fallback Demo.toy Demo.toy_registry
              "Improve the parser" "" (Demo.fresh (Ok "no plan"))
              (Demo.fresh (Ok "no plan"))
              (Exn ValueError "No JSON array found in response"))
    as (Hplan & Htwo & _).
  - vm_compute. reflexivity.
  - rewrite Hplan, Htwo; [reflexivity |]. right. vm_compute. reflexivity.
Defined.

(** C1, as first stated, fails: this goal does not contain "improve", yet
    its fallback plan has two steps, not one. *)
Lemma fallback_plan_patch_counterexample :
  PyStr.contains "improve" (PyStr.lower "apply the patch") = false
  /\ length (_get_fallback_plan "apply the patch") = 2%nat
  /\ _get_fallback_plan "apply the patch"
     <> [ fallback_step "generate_task_code"
                        [("task", JStr "apply the patch")] ].
Proof. split; [| split]; vm_compute; [reflexivity | reflexivity | discriminate]. Qed.

(** ** Agent loop *)

Ltac unfold_run :=
  unfold mbind, M_bind, mret, M_ret, lift, raise, try_except, emit,
    on_world, on_world_raising in *.

Section AgentFacts.
Context `{Collaborators}.
Variable registry : Registry.

Lemma dict_get_set_other {V : Type} (k k' : string) (v : V)
      (d : list (string * V)) :
  k <> k' -> dict_get k (dict_set k' v d) = dict_get k d.
Proof.
  intros Hne. induction d as [| [k0 v0] d IH]; simpl.
  - destruct (String.eqb_spec k k'); [contradiction | reflexivity].
  - destruct (String.eqb_spec k' k0) as [-> | Hk0]; simpl.
    + destruct (String.eqb_spec k k0); [contradiction | reflexivity].
    + by rewrite IH.
Qed.

(** *** What one step does *)

Lemma invoke_not_dict (func : capability) (action params : json) (st : State) :
  is_dict params = false ->
  invoke func action params st
  = (Raise (Exn TypeError ("argument after ** must be a mapping, not "
                             +:+ type_name params)), st).
Proof. by destruct params. Qed.

(** A step that is an object always ends with [True] or [False], after one
    resolution and one memory write for the goal. *)
Lemma execute_step_shape (goal : string) (fields : list (string * json))
      (st : State) :
  exists (b : bool) (r : string) (mid : State),
    _execute_step registry goal (JObj fields) st
    = (Ok b, (store goal (JObj fields) r mid).2)
    /\ data mid = data st
    /\ count_resolves mid = S (count_resolves st)
    /\ count_stores mid = count_stores st
    /\ (b = false -> exists e, r = "Error: " +:+ exn_str e).
Proof.
  unfold _execute_step. simpl py_get. unfold_run.
  set (action := match dict_get "action" fields with
                 | Some x => x | None => JNull end).
  set (params := match dict_get "params" fields with
                 | Some x => x | None => JObj [] end).
  unfold execute_attempt, resolve_skill. unfold_run. simpl.
  set (st0 := {| data := data st; world := world st;
                 events := events st ++ [EvResolve action] |}).
  assert (Hres0 : count_resolves st0 = S (count_resolves st)).
  { unfold count_resolves, st0. cbn [events].
    rewrite List.filter_app, length_app. simpl. lia. }
  assert (Hsto0 : count_stores st0 = count_stores st).
  { unfold count_stores, st0. cbn [events].
    rewrite List.filter_app, length_app. simpl. lia. }
  destruct (resolve registry action) as [[func |] | e] eqn:Hres.
  - destruct (is_dict params) eqn:Hdict.
    2: { rewrite (invoke_not_dict func action params st0 Hdict).
         eexists false, _, st0. rewrite !store_unfold. simpl.
         repeat split; try done. intros _.
         by exists (Exn TypeError
                      ("argument after ** must be a mapping, not "
                         +:+ type_name params)). }
    destruct params as [| b | z | f | p | items | kwargs] eqn:Hparams;
      try discriminate.
    unfold invoke.
    unfold_run. simpl.
    set (st1 := {| data := data st; world := world st;
                   events := (events st ++ [EvResolve action])
                               ++ [EvInvoke action kwargs] |}).
    destruct (func kwargs (world st)) as [[result | e] w] eqn:Hcall.
    + set (st2 := {| data := data st; world := w; events := events st1 |}).
      exists true, result, st2.
      subst st2 st1; rewrite !store_unfold; simpl.
      repeat split; try done.
      * unfold count_resolves. cbn [events].
        rewrite !List.filter_app, !length_app. simpl. lia.
      * unfold count_stores. cbn [events].
        rewrite !List.filter_app, !length_app. simpl. lia.
    + set (st2 := {| data := data st; world := w; events := events st1 |}).
      exists false, ("Error: " +:+ exn_str e), st2.
      subst st2 st1; rewrite !store_unfold; simpl.
      repeat split; try done.
      * unfold count_resolves. cbn [events].
        rewrite !List.filter_app, !length_app. simpl. lia.
      * unfold count_stores. cbn [events].
        rewrite !List.filter_app, !length_app. simpl. lia.
      * intros _. by exists e.
  - by destruct (resolve_not_none registry action).
  - exists false, ("Error: " +:+ exn_str e), st0.
    rewrite !store_unfold; simpl.
    repeat split; try done. intros _. by exists e.
Qed.

Lemma execute_step_effect (goal : string) (fields : list (string * json))
      (st : State) :
  exists (b : bool) (st' : State),
    _execute_step registry goal (JObj fields) st = (Ok b, st')
    /\ count_resolves st' = S (count_resolves st)
    /\ count_stores st' = S (count_stores st)
    /\ (exists r timestamp,
           retrieve goal st'
           = retrieve goal st
               ++ [ {| entry_step := JObj fields; entry_result := r;
                       entry_timestamp := timestamp |} ]
           /\ (b = false -> exists e, r = "Error: " +:+ exn_str e))
    /\ (forall other, other <> goal -> retrieve other st' = retrieve other st).
Proof.
  destruct (execute_step_shape goal fields st)
    as (b & r & mid & Hrun & Hdata & Hres & Hsto & Hfalse).
  exists b, (store goal (JObj fields) r mid).2.
  split; [exact Hrun |].
  assert (Hret : forall g, retrieve g mid = retrieve g st)
    by (intros g; unfold retrieve; by rewrite Hdata).
  repeat split.
  - rewrite store_unfold. unfold count_resolves in *. cbn [events snd].
    rewrite List.filter_app, length_app. simpl. lia.
  - rewrite store_unfold. unfold count_stores in *. cbn [events snd].
    rewrite List.filter_app, length_app. simpl. lia.
  - exists r, (now_isoformat (world mid)).1.
    rewrite retrieve_store_same, Hret. by split.
  - intros other Hne. by rewrite retrieve_store_other, Hret.
Qed.

(** *** The plans the planner returns *)

Lemma validate_step_has_action (step step' : json)
      (available_skills : list string) :
  validate_step step available_skills = Some step' -> has_action step'.
Proof.
  rewrite validate_step_spec.
  destruct (spec_keeps available_skills step) eqn:Hkeep; [| discriminate].
  intros Heq. injection Heq as <-.
  destruct step as [| b | z | f | s | items | fields]; try discriminate.
  simpl in Hkeep.
  destruct (dict_get "action" fields) as [action |] eqn:Haction;
    [| discriminate].
  unfold spec_coerce_params.
  destruct (dict_get "params" fields) as [[| b | z | f | s | items | kw] |];
    try (exists (dict_set "params" (JObj []) fields), action; split;
         [reflexivity | by rewrite dict_get_set_other]).
  by exists fields, action.
Qed.

Lemma validate_steps_have_action (steps : list json)
      (available_skills : list string) :
  Forall has_action (_validate_steps steps available_skills).
Proof.
  induction steps as [| step rest IH]; simpl; [constructor |].
  destruct (validate_step step available_skills) as [step' |] eqn:Hv;
    [| exact IH].
  constructor; [| exact IH]. by eapply validate_step_has_action.
Qed.

Lemma fallback_plan_has_action (goal : string) :
  Forall has_action (_get_fallback_plan goal).
Proof.
  unfold _get_fallback_plan, fallback_step.
  destruct (_ || _); repeat constructor;
    eexists _, _; (split; [reflexivity | reflexivity]).
Qed.

(** [plan_steps] never raises, touches neither the memory nor the record
    of interactions, and every step it returns is an object with an
    [action]. *)
Lemma plan_steps_shape (goal prior_context : string) (st : State) :
  exists plan w,
    plan_steps registry goal prior_context st
    = (Ok plan, {| data := data st; world := w; events := events st |})
    /\ Forall has_action plan.
Proof.
  unfold plan_steps, plan_attempt. unfold_run.
  destruct (call_model _ _ _ (world st)) as [response w]. simpl.
  destruct (_parse_plan_response response) as [steps | e].
  - eexists _, w. split; [reflexivity |]. apply validate_steps_have_action.
  - eexists _, w. split; [reflexivity |]. apply fallback_plan_has_action.
Qed.

Lemma log_plan_ok (plan : list json) :
  Forall has_action plan -> log_plan plan = Ok tt.
Proof.
  induction 1 as [| step rest (fields & action & -> & Haction) _ IH];
    [reflexivity |].
  simpl. by rewrite Haction.
Qed.

(** *** The loop over the plan *)

(** Under the cap [max_iterations], only the steps of index up to the cap
    matter. *)
Lemma execute_plan_prefix (goal : string) (max_iterations : Z)
      (steps : list json) :
  forall (i success_count : Z) (st : State),
    execute_plan registry goal max_iterations i steps success_count st
    = execute_plan registry goal max_iterations i
        (firstn (Z.to_nat (max_iterations - i + 1)) steps) success_count st.
Proof.
  induction steps as [| step rest IH]; intros i c st.
  - by rewrite firstn_nil.
  - simpl execute_plan at 1.
    destruct (max_iterations <? i) eqn:Hcap.
    + apply Z.ltb_lt in Hcap.
      replace (Z.to_nat (max_iterations - i + 1)) with O by lia.
      reflexivity.
    + apply Z.ltb_ge in Hcap.
      replace (Z.to_nat (max_iterations - i + 1))
        with (S (Z.to_nat (max_iterations - (i + 1) + 1))) by lia.
      simpl. rewrite (proj2 (Z.ltb_ge _ _) Hcap).
      unfold_run.
      destruct (py_getitem step "action"); [| reflexivity].
      destruct (_execute_step registry goal step st) as [[b | e] st'];
        [| reflexivity].
      apply IH.
Qed.

(** A cap that is not reached plays no role. *)
Lemma execute_plan_cap_irrelevant (goal : string) (m m' : Z)
      (steps : list json) :
  forall (i success_count : Z) (st : State),
    Z.of_nat (length steps) <= Z.max 0 (m - i + 1) ->
    Z.of_nat (length steps) <= Z.max 0 (m' - i + 1) ->
    execute_plan registry goal m i steps success_count st
    = execute_plan registry goal m' i steps success_count st.
Proof.
  induction steps as [| step rest IH]; intros i c st Hm Hm'; [reflexivity |].
  simpl length in Hm, Hm'. simpl.
  rewrite (proj2 (Z.ltb_ge m i)) by lia.
  rewrite (proj2 (Z.ltb_ge m' i)) by lia.
  unfold_run.
  destruct (py_getitem step "action"); [| reflexivity].
  destruct (_execute_step registry goal step st) as [[b | e] st'];
    [| reflexivity].
  apply IH; lia.
Qed.

(** Running all of [steps]: no exception, one resolution and one memory
    write for the goal per step. *)
Lemma execute_plan_all (goal : string) (m : Z) (steps : list json) :
  Forall has_action steps ->
  forall (i success_count : Z) (st : State),
    Z.of_nat (length steps) <= Z.max 0 (m - i + 1) ->
    exists cnt st',
      execute_plan registry goal m i steps success_count st = (Ok cnt, st')
      /\ success_count <= cnt <= success_count + Z.of_nat (length steps)
      /\ count_resolves st' = (count_resolves st + length steps)%nat
      /\ count_stores st' = (count_stores st + length steps)%nat
      /\ length (retrieve goal st')
         = (length (retrieve goal st) + length steps)%nat
      /\ (forall other, other <> goal ->
            retrieve other st' = retrieve other st).
Proof.
  induction 1 as [| step rest (fields & action & -> & Haction) _ IH];
    intros i c st Hm.
  - exists c, st. simpl. repeat split; try lia. 
  - simpl length in Hm. simpl execute_plan.
    rewrite (proj2 (Z.ltb_ge m i)) by lia.
    unfold_run. simpl py_getitem. rewrite Haction.
    destruct (execute_step_effect goal fields st)
      as (b & st1 & Hstep & Hres & Hsto & (r & ts & Hbucket & _) & Hother).
    rewrite Hstep.
    destruct (IH (i + 1) (if b then c + 1 else c) st1) as
      (cnt & st2 & Hrest & Hcnt & Hres2 & Hsto2 & Hlen2 & Hother2);
      [lia |].
    exists cnt, st2. split; [exact Hrest |].
    simpl length. split; [destruct b; lia |].
    split; [lia |]. split; [lia |]. split.
    + rewrite Hlen2, Hbucket, length_app. simpl. lia.
    + intros other Hne. by rewrite Hother2, Hother.
Qed.

(** *** The whole run *)

Lemma success_rate_threshold (cnt : Z) (plan : list json) :
  plan <> [] ->
  (Qgtb (success_rate cnt plan) (1 # 2) = true
   <-> (1 # 2 < inject_Z cnt / inject_Z (Z.of_nat (length plan)))%Q)
  /\ (Qgtb (success_rate cnt plan) (1 # 2) = true
      <-> Z.of_nat (length plan) < 2 * cnt).
Proof.
  intros Hne. destruct plan as [| step rest]; [done |].
  unfold Qgtb, success_rate.
  set (rate := (inject_Z cnt / inject_Z (Z.of_nat (length (step :: rest))))%Q).
  assert (Hlt : (1 # 2 < rate)%Q <-> Z.of_nat (length (step :: rest)) < 2 * cnt).
  { unfold rate, Qlt, Qdiv, Qmult, Qinv, inject_Z. simpl length.
    rewrite Nat2Z.inj_succ. unfold Z.succ.
    destruct (Z.of_nat (length rest) + 1) as [| p | p] eqn:Hn; try lia.
    simpl. lia. }
  assert (Hb : negb (Qle_bool rate (1 # 2)) = true <-> (1 # 2 < rate)%Q).
  { rewrite negb_true_iff. split.
    - intros Hfalse. apply Qnot_le_lt. intros Hle.
      apply Qle_bool_iff in Hle. congruence.
    - intros Hlt'. destruct (Qle_bool rate (1 # 2)) eqn:Hle; [| done].
      apply Qle_bool_iff in Hle. by apply Qlt_not_le in Hlt'. }
  split; [exact Hb |]. by rewrite Hb.
Qed.

Lemma run_agent_unfold (goal : string) (max_iterations : Z) (st st1 : State)
      (prior_context : string) (plan : list json) :
  get_recent_context goal 5 st = Ok prior_context ->
  plan_steps registry goal prior_context st = (Ok plan, st1) ->
  run_agent registry goal max_iterations st
  = match plan with
    | [] => (Ok false, st1)
    | _ =>
        match log_plan plan with
        | Ok _ =>
            match execute_plan registry goal max_iterations 1 plan 0 st1 with
            | (Ok success_count, st2) =>
                (Ok (Qgtb (success_rate success_count plan) (1 # 2)), st2)
            | (Raise _, st2) => (Ok false, st2)
            end
        | Raise _ => (Ok false, st1)
        end
    end.
Proof.
  intros Hctx Hplan.
  unfold run_agent, run_attempt, recent_context. unfold_run.
  rewrite Hctx, Hplan.
  destruct plan as [| step rest]; [reflexivity |].
  destruct (log_plan (step :: rest)); [| reflexivity].
  by destruct (execute_plan registry goal max_iterations 1 (step :: rest) 0 st1)
    as [[cnt | e] st2].
Qed.

(** The count the loop returns is the number of its steps for which
    [_execute_step] returned [True]. *)
Lemma execute_plan_counts (goal : string) (m : Z) (steps : list json) :
  Forall has_action steps ->
  forall (i success_count : Z) (st : State),
    Z.of_nat (length steps) <= Z.max 0 (m - i + 1) ->
    exists outcomes st',
      step_outcomes registry goal steps st = (Ok outcomes, st')
      /\ length outcomes = length steps
      /\ execute_plan registry goal m i steps success_count st
         = (Ok (success_count + successful_steps outcomes), st').
Proof.
  induction 1 as [| step rest (fields & action & -> & Haction) _ IH];
    intros i c st Hm.
  - exists [], st. split; [reflexivity |]. split; [reflexivity |].
    simpl. unfold mret, M_ret, successful_steps. simpl. by rewrite Z.add_0_r.
  - simpl length in Hm. simpl execute_plan. simpl step_outcomes.
    rewrite (proj2 (Z.ltb_ge m i)) by lia.
    unfold_run. simpl py_getitem. rewrite Haction.
    destruct (execute_step_effect goal fields st) as (b & st1 & Hstep & _).
    rewrite Hstep.
    destruct (IH (i + 1) (if b then c + 1 else c) st1)
      as (outcomes & st2 & Hout & Hlen & Hexec); [lia |].
    unfold_run. rewrite Hout.
    exists (b :: outcomes), st2. split; [reflexivity |].
    split; [simpl; lia |].
    rewrite Hexec. f_equal. f_equal.
    unfold successful_steps. destruct b; simpl length; lia.
Qed.

(** C2. For a run whose plan is not empty, [run_agent] returns [True]
    exactly when the number of successful steps, those for which
    [_execute_step] returned [True], divided by the length of the whole
    plan exceeds one half, that is when the plan has fewer steps than twice
    the successes.  The steps run are the first [max_iterations] of the
    plan, all of them when the plan is no longer than that.  With four
    steps, two successes give [False] and three give [True]. *)
Theorem run_agent_success_threshold (goal : string) (max_iterations : Z)
        (st st1 : State) (prior_context : string) (plan : list json) :
  get_recent_context goal 5 st = Ok prior_context ->
  plan_steps registry goal prior_context st = (Ok plan, st1) ->
  plan <> [] ->
  exists outcomes st2,
    step_outcomes registry goal (firstn (Z.to_nat max_iterations) plan) st1
    = (Ok outcomes, st2)
    /\ length outcomes = length (firstn (Z.to_nat max_iterations) plan)
    /\ (Z.of_nat (length plan) <= max_iterations ->
        step_outcomes registry goal plan st1 = (Ok outcomes, st2)
        /\ length outcomes = length plan)
    /\ execute_plan registry goal max_iterations 1 plan 0 st1
       = (Ok (successful_steps outcomes), st2)
    /\ run_agent registry goal max_iterations st
       = (Ok (Qgtb (inject_Z (successful_steps outcomes)
                    / inject_Z (Z.of_nat (length plan))) (1 # 2)), st2)
    /\ ((run_agent registry goal max_iterations st).1 = Ok true
        <-> (1 # 2 < inject_Z (successful_steps outcomes)
                     / inject_Z (Z.of_nat (length plan)))%Q)
    /\ ((run_agent registry goal max_iterations st).1 = Ok true
        <-> Z.of_nat (length plan) < 2 * successful_steps outcomes)
    /\ (length plan = 4%nat -> successful_steps outcomes = 2 ->
        (run_agent registry goal max_iterations st).1 = Ok false)
    /\ (length plan = 4%nat -> successful_steps outcomes = 3 ->
        (run_agent registry goal max_iterations st).1 = Ok true).
Proof.
  intros Hctx Hplan Hne.
  destruct (plan_steps_shape goal prior_context st) as (plan' & w & Hshape & Hwf).
  rewrite Hplan in Hshape. injection Hshape as <- ->.
  set (st1 := {| data := data st; world := w; events := events st |}) in *.
  set (prefix := firstn (Z.to_nat max_iterations) plan).
  assert (Hprefix_wf : Forall has_action prefix)
    by (by apply Forall_take).
  destruct (execute_plan_counts goal max_iterations prefix Hprefix_wf 1 0 st1)
    as (outcomes & st2 & Hout & Hlen & Hexec);
    [unfold prefix; rewrite length_firstn; lia |].
  rewrite Z.add_0_l in Hexec.
  assert (Hwhole : execute_plan registry goal max_iterations 1 plan 0 st1
                   = (Ok (successful_steps outcomes), st2)).
  { rewrite execute_plan_prefix.
    replace (Z.to_nat (max_iterations - 1 + 1))
      with (Z.to_nat max_iterations) by lia.
    exact Hexec. }
  exists outcomes, st2. split; [exact Hout |]. split; [exact Hlen |].
  split.
  { intros Hall.
    assert (Hfull : prefix = plan) by (apply firstn_all2; lia).
    rewrite Hfull in Hout, Hlen. by split. }
  split; [exact Hwhole |].
  set (cnt := successful_steps outcomes) in *.
  assert (Hrun : run_agent registry goal max_iterations st
                 = (Ok (Qgtb (success_rate cnt plan) (1 # 2)), st2)).
  { rewrite (run_agent_unfold goal max_iterations st st1 prior_context plan
               Hctx Hplan).
    destruct plan as [| step rest]; [done |].
    by rewrite (log_plan_ok _ Hwf), Hwhole. }
  destruct (success_rate_threshold cnt plan Hne) as [HQ HZ].
  assert (Hrate : success_rate cnt plan
                  = (inject_Z cnt / inject_Z (Z.of_nat (length plan)))%Q)
    by (by destruct plan).
  rewrite Hrun. cbn [fst]. rewrite <- Hrate. rewrite <- Hrate in HQ.
  split; [reflexivity |].
  split; [rewrite <- HQ; split; congruence |].
  split; [rewrite <- HZ; split; congruence |].
  split.
  - intros Hfour Htwo. f_equal. apply not_true_is_false.
    intros Hb. apply HZ in Hb. lia.
  - intros Hfour Hthree. f_equal. apply HZ. lia.
Qed.

(** C3. With a cap below the length of the plan, [run_agent] runs the
    first [max_iterations] steps and no other: the loop ends as the loop
    over that prefix alone does under any cap not smaller, whatever
    follows the prefix; the run makes [max_iterations] registry
    resolutions and [max_iterations] memory writes, all for the goal; and
    its result is still decided by the successes against the length of the
    whole plan. *)
Theorem run_agent_iteration_cap (goal : string) (max_iterations : Z)
        (st st1 : State) (prior_context : string) (plan : list json) :
  get_recent_context goal 5 st = Ok prior_context ->
  plan_steps registry goal prior_context st = (Ok plan, st1) ->
  max_iterations < Z.of_nat (length plan) ->
  exists success_count st2,
    (forall m', max_iterations <= m' ->
       execute_plan registry goal m' 1
                    (firstn (Z.to_nat max_iterations) plan) 0 st1
       = (Ok success_count, st2))
    /\ (forall tail,
          execute_plan registry goal max_iterations 1
                       (firstn (Z.to_nat max_iterations) plan ++ tail) 0 st1
          = (Ok success_count, st2))
    /\ execute_plan registry goal max_iterations 1 plan 0 st1
       = (Ok success_count, st2)
    /\ run_agent registry goal max_iterations st
       = (Ok (Qgtb (success_rate success_count plan) (1 # 2)), st2)
    /\ count_resolves st2
       = (count_resolves st1 + Z.to_nat max_iterations)%nat
    /\ count_stores st2 = (count_stores st1 + Z.to_nat max_iterations)%nat
    /\ length (retrieve goal st2)
       = (length (retrieve goal st1) + Z.to_nat max_iterations)%nat
    /\ (forall other, other <> goal ->
          retrieve other st2 = retrieve other st1)
    /\ 0 <= success_count <= Z.max 0 max_iterations.
Proof.
  intros Hctx Hplan Hcap.
  destruct (plan_steps_shape goal prior_context st) as (plan' & w & Hshape & Hwf).
  rewrite Hplan in Hshape. injection Hshape as <- Hst1.
  set (prefix := firstn (Z.to_nat max_iterations) plan).
  assert (Hprefix_wf : Forall has_action prefix) by (by apply Forall_take).
  assert (Hlen : length prefix = Z.to_nat max_iterations)
    by (unfold prefix; rewrite length_firstn; lia).
  destruct (execute_plan_all goal max_iterations prefix Hprefix_wf 1 0 st1)
    as (cnt & st2 & Hexec & Hcnt & Hres & Hsto & Hbucket & Hother); [lia |].
  assert (Hprefix : forall tail,
             execute_plan registry goal max_iterations 1 (prefix ++ tail) 0 st1
             = (Ok cnt, st2)).
  { intros tail. rewrite execute_plan_prefix.
    replace (firstn (Z.to_nat (max_iterations - 1 + 1)) (prefix ++ tail))
      with prefix.
    - rewrite execute_plan_prefix in Hexec.
      replace (firstn (Z.to_nat (max_iterations - 1 + 1)) prefix)
        with prefix in Hexec; [exact Hexec |].
      symmetry. apply firstn_all2. lia.
    - rewrite firstn_app.
      replace (Z.to_nat (max_iterations - 1 + 1) - length prefix)%nat
        with O by lia.
      rewrite firstn_O, app_nil_r. symmetry. apply firstn_all2. lia. }
  assert (Hwhole : execute_plan registry goal max_iterations 1 plan 0 st1
                   = (Ok cnt, st2)).
  { rewrite <- (firstn_skipn (Z.to_nat max_iterations) plan). apply Hprefix. }
  exists cnt, st2.
  split.
  { intros m' Hm'. rewrite <- Hexec.
    apply execute_plan_cap_irrelevant; lia. }
  split; [exact Hprefix |]. split; [exact Hwhole |].
  split.
  { rewrite (run_agent_unfold goal max_iterations st st1 prior_context plan
               Hctx Hplan).
    destruct plan as [| step rest] eqn:Hp.
    - simpl in *. unfold prefix in Hexec. rewrite firstn_nil in Hexec.
      simpl in Hexec. by injection Hexec as <- <-.
    - by rewrite (log_plan_ok _ Hwf), Hwhole. }
  rewrite Hres, Hsto, Hbucket, Hlen.
  repeat split; try done; lia.
Qed.

(** C8. When the planner returns an empty plan, [run_agent] returns
    [False] in the state the planner left: nothing was resolved, invoked or
    stored. *)
Theorem run_agent_empty_plan (goal : string) (max_iterations : Z)
        (st st1 : State) (prior_context : string) :
  get_recent_context goal 5 st = Ok prior_context ->
  plan_steps registry goal prior_context st = (Ok [], st1) ->
  run_agent registry goal max_iterations st = (Ok false, st1)
  /\ data st1 = data st
  /\ events st1 = events st.
Proof.
  intros Hctx Hplan.
  split; [by rewrite (run_agent_unfold goal max_iterations st st1
                        prior_context [] Hctx Hplan) |].
  destruct (plan_steps_shape goal prior_context st) as (plan' & w & Hshape & _).
  rewrite Hplan in Hshape. by injection Hshape as _ ->.
Qed.

Lemma execute_step_skill_raises (goal : string)
      (fields kwargs : list (string * json)) (name : string)
      (func : capability) (e : exn) (w : World) (st : State) :
  dict_get "action" fields = Some (JStr name) ->
  py_get (JObj fields) "params" (JObj []) = Ok (JObj kwargs) ->
  dict_get name registry = Some func ->
  func kwargs (world st) = (Raise e, w) ->
  _execute_step registry goal (JObj fields) st
  = (Ok false,
     (store goal (JObj fields) ("Error: " +:+ exn_str e)
            {| data := data st; world := w;
               events := (events st ++ [EvResolve (JStr name)])
                           ++ [EvInvoke (JStr name) kwargs] |}).2).
Proof.
  intros Haction Hparams Hskill Hraise.
  unfold _execute_step. rewrite Hparams.
  unfold py_get at 1. rewrite Haction.
  unfold execute_attempt, resolve_skill, invoke. unfold_run.
  simpl. rewrite Hskill. simpl. rewrite Hraise.
  by rewrite !store_unfold.
Qed.

(** C5. [run_agent] always returns a boolean.  An exception escaping the
    body of its [try] becomes [False].  When the skill of a step raises,
    [_execute_step] returns [False] after storing ["Error: "] followed by
    the text of the exception as the result of that step, and the loop
    goes on with the next step. *)
Theorem run_agent_never_raises (goal : string) (max_iterations : Z)
        (st : State) :
  (exists b, (run_agent registry goal max_iterations st).1 = Ok b)
  /\ (forall e st',
        run_attempt registry goal max_iterations st = (Raise e, st') ->
        run_agent registry goal max_iterations st = (Ok false, st'))
  /\ (forall fields kwargs name func e w,
        dict_get "action" fields = Some (JStr name) ->
        py_get (JObj fields) "params" (JObj []) = Ok (JObj kwargs) ->
        dict_get name registry = Some func ->
        func kwargs (world st) = (Raise e, w) ->
        exists st' timestamp,
          _execute_step registry goal (JObj fields) st = (Ok false, st')
          /\ retrieve goal st'
             = retrieve goal st
                 ++ [ {| entry_step := JObj fields;
                         entry_result := "Error: " +:+ exn_str e;
                         entry_timestamp := timestamp |} ]
          /\ (forall i rest success_count,
                i <= max_iterations ->
                execute_plan registry goal max_iterations i
                             (JObj fields :: rest) success_count st
                = execute_plan registry goal max_iterations (i + 1)
                               rest success_count st')).
Proof.
  split; [| split].
  - unfold run_agent, try_except.
    destruct (run_attempt registry goal max_iterations st) as [[b | e] st'].
    + by exists b.
    + by exists false.
  - intros e st' Hraise. unfold run_agent, try_except. by rewrite Hraise.
  - intros fields kwargs name func e w Haction Hparams Hskill Hraise.
    pose proof (execute_step_skill_raises goal fields kwargs name func e w st
                  Haction Hparams Hskill Hraise) as Hstep.
    eexists _, _. split; [exact Hstep |]. split.
    + rewrite retrieve_store_same. unfold retrieve. simpl. reflexivity.
    + intros i rest c Hi. simpl execute_plan.
      rewrite (proj2 (Z.ltb_ge max_iterations i)) by lia.
      unfold_run. simpl py_getitem. rewrite Haction.
      unfold_run. by rewrite Hstep.
Qed.

End AgentFacts.

(** ** The properties on the concrete setting *)

Lemma store_then_retrieve_witness :
  "other" <> "demo"
  /\ retrieve "other"
       (store "demo" Demo.good_step "demo" (Demo.fresh (Ok ""))).2
     = retrieve "other" (Demo.fresh (Ok "")).
Proof.
  split; [discriminate |].
  destruct (store_then_retrieve "demo" Demo.good_step "demo"
                                (Demo.fresh (Ok ""))) as (_ & _ & Hother).
  apply Hother. discriminate.
Defined.

Lemma clear_goal_then_retrieve_witness :
  data (Demo.fresh (Ok "")) !! "demo" = None
  /\ clear_goal "demo" (Demo.fresh (Ok "")) = (Ok tt, Demo.fresh (Ok "")).
Proof.
  split; [reflexivity |].
  destruct (clear_goal_then_retrieve "demo" (Demo.fresh (Ok "")))
    as (_ & _ & Habsent & _).
  apply Habsent. reflexivity.
Defined.

(** Four planned steps, two successes: [False]; three successes: [True]. *)
Lemma run_agent_success_threshold_witness :
  (exists st2,
      step_outcomes Demo.toy_registry "demo"
                    (Demo.validated_plan [true; true; false; false])
                    (Demo.fresh (Ok (Demo.plan_text [true; true; false; false])))
      = (Ok [true; true; false; false], st2)
      /\ (run_agent Demo.toy_registry "demo" 10
            (Demo.fresh (Ok (Demo.plan_text [true; true; false; false])))).1
         = Ok false)
  /\ (exists st2,
        step_outcomes Demo.toy_registry "demo"
                      (Demo.validated_plan [true; true; true; false])
                      (Demo.fresh (Ok (Demo.plan_text [true; true; true; false])))
        = (Ok [true; true; true; false], st2)
        /\ (run_agent Demo.toy_registry "demo" 10
              (Demo.fresh (Ok (Demo.plan_text [true; true; true; false])))).1
           = Ok true).
Proof.
  split.
  - destruct (run_agent_success_threshold
                Demo.toy_registry "demo" 10
                (Demo.fresh (Ok (Demo.plan_text [true; true; false; false])))
                (Demo.fresh (Ok (Demo.plan_text [true; true; false; false])))
                no_prior_context
                (Demo.validated_plan [true; true; false; false]))
      as (outcomes & st2 & _ & _ & Hfull & _ & _ & _ & _ & Htwo & _).
    + vm_compute. reflexivity.
    + vm_compute. reflexivity.
    + discriminate.
    + destruct Hfull as [Hout _]; [simpl; lia |].
      assert (Houtcomes : outcomes = [true; true; false; false]).
      { pose proof Hout as Hrun. vm_compute in Hrun.
        by injection Hrun as <- _. }
      subst outcomes. exists st2. split; [exact Hout |].
      apply Htwo; reflexivity.
  - destruct (run_agent_success_threshold
                Demo.toy_registry "demo" 10
                (Demo.fresh (Ok (Demo.plan_text [true; true; true; false])))
                (Demo.fresh (Ok (Demo.plan_text [true; true; true; false])))
                no_prior_context
                (Demo.validated_plan [true; true; true; false]))
      as (outcomes & st2 & _ & _ & Hfull & _ & _ & _ & _ & _ & Hthree).
    + vm_compute. reflexivity.
    + vm_compute. reflexivity.
    + discriminate.
    + destruct Hfull as [Hout _]; [simpl; lia |].
      assert (Houtcomes : outcomes = [true; true; true; false]).
      { pose proof Hout as Hrun. vm_compute in Hrun.
        by injection Hrun as <- _. }
      subst outcomes. exists st2. split; [exact Hout |].
      apply Hthree; reflexivity.
Defined.

Example run_agent_three_of_four :
  (run_agent Demo.toy_registry "demo" 10
     (Demo.fresh (Ok (Demo.plan_text [true; true; true; false])))).1
  = Ok true.
Proof. vm_compute. reflexivity. Qed.

(** Three planned steps, a cap of two, two successes: the run stops at the
    cap and still returns [True]. *)
Lemma run_agent_iteration_cap_witness :
  (run_agent Demo.toy_registry "demo" 2
     (Demo.fresh (Ok (Demo.plan_text [true; true; true])))).1
  = Ok true
  /\ count_resolves
       (run_agent Demo.toy_registry "demo" 2
          (Demo.fresh (Ok (Demo.plan_text [true; true; true])))).2
     = 2%nat
  /\ length (retrieve "demo"
       (run_agent Demo.toy_registry "demo" 2
          (Demo.fresh (Ok (Demo.plan_text [true; true; true])))).2)
     = 2%nat.
Proof.
  destruct (run_agent_iteration_cap
              Demo.toy_registry "demo" 2
              (Demo.fresh (Ok (Demo.plan_text [true; true; true])))
              (Demo.fresh (Ok (Demo.plan_text [true; true; true])))
              no_prior_context
              (Demo.validated_plan [true; true; true]))
    as (cnt & st2 & _ & _ & Hexec & Hrun & Hres & _ & Hlen & _).
  - vm_compute. reflexivity.
  - vm_compute. reflexivity.
  - vm_compute. reflexivity.
  - rewrite Hrun. cbn [fst snd]. rewrite Hres, Hlen.
    split; [| split; reflexivity].
    vm_compute in Hexec. injection Hexec as <- _.
    vm_compute. reflexivity.
Defined.

Lemma run_agent_empty_plan_witness :
  run_agent Demo.toy_registry "demo" 10 (Demo.fresh (Ok "[]"))
  = (Ok false, Demo.fresh (Ok "[]")).
Proof.
  apply (run_agent_empty_plan Demo.toy_registry "demo" 10
           (Demo.fresh (Ok "[]")) (Demo.fresh (Ok "[]")) no_prior_context).
  - vm_compute. reflexivity.
  - vm_compute. reflexivity.
Defined.

(** A stored entry whose step is not an object makes the recall of context
    raise; the run answers [False].  A skill that raises makes its step
    fail, with the error text stored. *)
Lemma run_agent_never_raises_witness :
  (run_agent Demo.toy_registry "demo" 10
     (Demo.with_history (Ok "[]") "demo" [Demo.past JNull "lost"])).1
  = Ok false
  /\ (_execute_step Demo.toy_registry "demo" Demo.bad_step_validated
                    (Demo.fresh (Ok ""))).1
     = Ok false.
Proof.
  split.
  - destruct (run_agent_never_raises
                Demo.toy_registry "demo" 10
                (Demo.with_history (Ok "[]") "demo" [Demo.past JNull "lost"]))
      as (_ & Hcatch & _).
    rewrite (Hcatch (Exn AttributeError
                         "'NoneType' object has no attribute 'get'")
                    (Demo.with_history (Ok "[]") "demo"
                                       [Demo.past JNull "lost"]));
      [reflexivity |].
    vm_compute. reflexivity.
  - destruct (run_agent_never_raises
                Demo.toy_registry "demo" 10 (Demo.fresh (Ok "")))
      as (_ & _ & Hskill).
    destruct (Hskill [("action", JStr "echo"); ("params", JObj [])] [] "echo"
                     Demo.echo
                     (Exn TypeError
                          "echo() missing 1 required positional argument: 'task'")
                     (world (Demo.fresh (Ok ""))))
      as (st' & timestamp & Hstep & _);
      [reflexivity | reflexivity | reflexivity | reflexivity |].
    unfold Demo.bad_step_validated. by rewrite Hstep.
Defined.

(** The scenario of the specification: one skill [echo], a plan of one
    [echo] step for the goal "demo". *)
Example run_agent_demo_scenario :
  (run_agent Demo.toy_registry "demo" 10
     (Demo.fresh (Ok (Demo.plan_text [true])))).1 = Ok true
  /\ map entry_result
       (retrieve "demo"
          (run_agent Demo.toy_registry "demo" 10
             (Demo.fresh (Ok (Demo.plan_text [true])))).2)
     = ["demo"].
Proof. split; vm_compute; reflexivity. Qed.

(** * Further properties *)

(** ** Skill registry: registration, listing, reloading *)

Section RegistryMore.
Context `{Collaborators}.

Lemma dict_get_set_same {V : Type} (k : string) (v : V) (d : list (string * V)) :
  dict_get k (dict_set k v d) = Some v.
Proof.
  induction d as [| [k0 v0] d IH]; simpl.
  - by rewrite String.eqb_refl.
  - destruct (String.eqb k k0) eqn:Hk; simpl.
    + by rewrite String.eqb_refl.
    + by rewrite Hk.
Qed.

Lemma dict_get_keys {V : Type} (k : string) (d : list (string * V)) :
  (exists v, dict_get k d = Some v) <-> In k (dict_keys d).
Proof.
  induction d as [| [k0 v0] d IH]; simpl.
  - split; [intros [v Hv]; discriminate | tauto].
  - destruct (String.eqb_spec k k0) as [-> | Hne].
    + split; [by left | by exists v0].
    + rewrite IH. split; [by right | intros [Heq | Hin]; [congruence | done]].
Qed.

Lemma dict_keys_set {V : Type} (k : string) (v : V) (d : list (string * V)) :
  dict_keys (dict_set k v d)
  = if existsb (String.eqb k) (dict_keys d)
    then dict_keys d else dict_keys d ++ [k].
Proof.
  induction d as [| [k0 v0] d IH]; simpl; [reflexivity |].
  destruct (String.eqb_spec k k0) as [-> | Hne]; simpl; [reflexivity |].
  rewrite IH. by destruct (existsb (String.eqb k) (dict_keys d)).
Qed.

(** X1. A registered skill is the one [resolve] returns under that name
    (the last registration wins), and registering leaves the resolution of
    every other name as it was. *)
Theorem register_then_resolve (name : string) (func : capability)
        (self : Registry) :
  resolve (register name func self) (JStr name) = Ok (Some func)
  /\ (forall other, other <> JStr name ->
        resolve (register name func self) other = resolve self other).
Proof.
  unfold register. split.
  - simpl. by rewrite dict_get_set_same.
  - intros other Hne.
    destruct other as [| b | z | f | s | items | fields]; try reflexivity.
    simpl. rewrite dict_get_set_other; [reflexivity | congruence].
Qed.

(** X2. [resolve] finds a skill exactly for the names [list_skills] returns;
    for any other string it raises a [ValueError] naming the skill. *)
Theorem resolve_iff_listed (self : Registry) (name : string) :
  ((exists func, resolve self (JStr name) = Ok (Some func))
   <-> In name (list_skills self))
  /\ (~ In name (list_skills self) ->
      resolve self (JStr name)
      = Raise (Exn ValueError
                 ("Skill '" +:+ name +:+ "' not found in registry"))).
Proof.
  unfold list_skills. split.
  - rewrite <- dict_get_keys. simpl.
    destruct (dict_get name self) as [func |]; split.
    + intros _. by exists func.
    + intros _. by exists func.
    + intros [func Hres]. discriminate.
    + intros [func Hres]. discriminate.
  - intros Hout. simpl.
    destruct (dict_get name self) as [func |] eqn:Hget; [| reflexivity].
    exfalso. apply Hout. apply dict_get_keys. by exists func.
Qed.

(** X3. Registering under a name already listed keeps the list of names as
    it is; a new name goes to the end of the list; names stay distinct. *)
Theorem register_list_skills (name : string) (func : capability)
        (self : Registry) :
  list_skills (register name func self)
  = (if in_names (JStr name) (list_skills self)
     then list_skills self else list_skills self ++ [name])
  /\ (NoDup (list_skills self) ->
      NoDup (list_skills (register name func self))).
Proof.
  unfold list_skills, register. rewrite dict_keys_set. simpl.
  split; [reflexivity |].
  intros Hnodup.
  destruct (existsb (String.eqb name) (dict_keys self)) eqn:Hin; [exact Hnodup |].
  apply NoDup_app. split; [exact Hnodup |]. split; [| apply NoDup_singleton].
  intros x Hx Hx'. apply list_elem_of_singleton in Hx'. subst x.
  assert (Hex : existsb (String.eqb name) (dict_keys self) = true).
  { apply existsb_exists. exists name. split.
    - by apply list_elem_of_In.
    - apply String.eqb_refl. }
  congruence.
Qed.

(** X4. [reload_skills] forgets whatever was registered: its result is the
    same from any registry.  When both imports succeed the registry holds
    the two built-in skills, in this order, and nothing else; when an import
    fails with [ImportError] the registry is left empty; any other exception
    of an import escapes. *)
Theorem reload_skills_forgets (imported : outcome (capability * capability))
        (self : Registry) :
  reload_skills imported self = reload_skills imported []
  /\ (forall generate_task_code trace_variable_flow,
        imported = Ok (generate_task_code, trace_variable_flow) ->
        exists reg,
          reload_skills imported self = Ok reg
          /\ list_skills reg = ["generate_task_code"; "trace_variable_flow"]
          /\ resolve reg (JStr "generate_task_code")
             = Ok (Some generate_task_code)
          /\ resolve reg (JStr "trace_variable_flow")
             = Ok (Some trace_variable_flow))
  /\ (forall e, imported = Raise e -> exn_kind e = ImportError ->
        reload_skills imported self = Ok [])
  /\ (forall e, imported = Raise e -> exn_kind e <> ImportError ->
        reload_skills imported self = Raise e).
Proof.
  split; [reflexivity |]. split; [| split].
  - intros g t ->. eexists. split; [reflexivity |]. by repeat split.
  - intros e -> Hkind. unfold reload_skills, _load_skills. by rewrite Hkind.
  - intros e -> Hkind. unfold reload_skills, _load_skills.
    by destruct (exn_kind e).
Qed.

End RegistryMore.

Lemma register_then_resolve_witness :
  JStr "fly" <> JStr "echo"
  /\ resolve (register "echo" Demo.echo Demo.toy_registry) (JStr "fly")
     = resolve Demo.toy_registry (JStr "fly").
Proof.
  split; [discriminate |].
  destruct (register_then_resolve "echo" Demo.echo Demo.toy_registry)
    as [_ Hother].
  apply Hother. discriminate.
Defined.

Lemma resolve_iff_listed_witness :
  ~ In "fly" (list_skills Demo.toy_registry)
  /\ resolve Demo.toy_registry (JStr "fly")
     = Raise (Exn ValueError "Skill 'fly' not found in registry").
Proof.
  assert (Hout : ~ In "fly" (list_skills Demo.toy_registry)).
  { simpl. intros [Heq | []]. discriminate. }
  split; [exact Hout |].
  destruct (resolve_iff_listed Demo.toy_registry "fly") as [_ Hraise].
  by apply Hraise.
Defined.

Lemma register_list_skills_witness :
  NoDup (list_skills Demo.toy_registry)
  /\ NoDup (list_skills (register "fly" Demo.echo Demo.toy_registry)).
Proof.
  assert (Hnodup : NoDup (list_skills Demo.toy_registry)).
  { simpl. apply NoDup_singleton. }
  split; [exact Hnodup |].
  destruct (register_list_skills "fly" Demo.echo Demo.toy_registry)
    as [_ Hkeep].
  by apply Hkeep.
Defined.

Lemma reload_skills_forgets_witness :
  exn_kind (Exn ImportError "No module named 'skills.generate_task_code'")
  = ImportError
  /\ reload_skills
       (Raise (Exn ImportError "No module named 'skills.generate_task_code'"))
       Demo.toy_registry
     = Ok [].
Proof.
  split; [reflexivity |].
  destruct (reload_skills_forgets
              (Raise (Exn ImportError
                          "No module named 'skills.generate_task_code'"))
              Demo.toy_registry) as (_ & _ & Hempty & _).
  by eapply Hempty.
Defined.

(** ** Memory store: other goals, statistics, the digest after a write *)

Section MemoryMore.
Context `{Collaborators}.

Lemma count_entries_fresh (goal : string) (bucket : list MemoryEntry)
      (d : gmap string (list MemoryEntry)) :
  d !! goal = None ->
  count_entries (<[goal := bucket]> d)
  = Z.of_nat (length bucket) + count_entries d.
Proof.
  intros Hfresh. unfold count_entries.
  rewrite map_fold_insert_L; [reflexivity | | exact Hfresh].
  intros. lia.
Qed.

Lemma count_entries_delete (goal : string) (bucket : list MemoryEntry)
      (d : gmap string (list MemoryEntry)) :
  d !! goal = Some bucket ->
  count_entries d
  = Z.of_nat (length bucket) + count_entries (delete goal d).
Proof.
  intros Hthere. unfold count_entries.
  rewrite (map_fold_delete_L _ _ goal bucket d); [reflexivity | | exact Hthere].
  intros. lia.
Qed.

Lemma count_entries_insert (goal : string) (bucket : list MemoryEntry)
      (d : gmap string (list MemoryEntry)) :
  count_entries (<[goal := bucket]> d)
  = Z.of_nat (length bucket) + count_entries (delete goal d).
Proof.
  rewrite <- insert_delete_eq.
  apply count_entries_fresh. apply lookup_delete_eq.
Qed.

Lemma count_entries_retrieve (goal : string) (st : State) :
  count_entries (data st)
  = Z.of_nat (length (retrieve goal st)) + count_entries (delete goal (data st)).
Proof.
  unfold retrieve.
  destruct (data st !! goal) as [bucket |] eqn:Hlook; simpl.
  - by apply count_entries_delete.
  - by rewrite delete_id.
Qed.

(** X5. [clear_goal(goal)] leaves the bucket of every other goal as it
    was. *)
Theorem clear_goal_other (goal other : string) (st : State) :
  other <> goal ->
  retrieve other (clear_goal goal st).2 = retrieve other st.
Proof.
  intros Hne. unfold retrieve. rewrite clear_goal_data.
  by rewrite lookup_delete_ne.
Qed.

(** X6. Each [store] raises [total_entries] of [get_stats] by one;
    [total_goals] grows by one when the goal had no bucket and stays the
    same when it had one. *)
Theorem store_stats (goal : string) (step : json) (result : string)
        (st : State) :
  total_entries (get_stats (store goal step result st).2)
  = total_entries (get_stats st) + 1
  /\ (data st !! goal = None ->
      total_goals (get_stats (store goal step result st).2)
      = total_goals (get_stats st) + 1)
  /\ (is_Some (data st !! goal) ->
      total_goals (get_stats (store goal step result st).2)
      = total_goals (get_stats st)).
Proof.
  rewrite store_unfold. unfold get_stats. cbn [total_entries total_goals data snd].
  split; [| split].
  - rewrite count_entries_insert, (count_entries_retrieve goal st).
    rewrite length_app. simpl. lia.
  - intros Hnone. rewrite map_size_insert_None by done. lia.
  - intros Hsome. by rewrite map_size_insert_Some.
Qed.

(** X7. [clear_goal(goal)] lowers [total_entries] by the number of entries
    the goal had, and [total_goals] by one when the goal had a bucket. *)
Theorem clear_goal_stats (goal : string) (st : State) :
  total_entries (get_stats (clear_goal goal st).2)
  = total_entries (get_stats st) - Z.of_nat (length (retrieve goal st))
  /\ (is_Some (data st !! goal) ->
      total_goals (get_stats (clear_goal goal st).2)
      = total_goals (get_stats st) - 1)
  /\ (data st !! goal = None ->
      get_stats (clear_goal goal st).2 = get_stats st).
Proof.
  unfold get_stats. rewrite clear_goal_data. cbn [total_entries total_goals].
  split; [| split].
  - rewrite (count_entries_retrieve goal st). lia.
  - intros Hsome. rewrite map_size_delete_Some by done.
    destruct Hsome as [bucket Hlook].
    assert (size (data st) <> 0%nat).
    { intros Hzero. apply map_size_empty_inv in Hzero.
      rewrite Hzero, lookup_empty in Hlook. discriminate. }
    lia.
  - intros Hnone. by rewrite delete_id.
Qed.

Lemma context_parts_app (front : list MemoryEntry) (entry : MemoryEntry) :
  context_parts (front ++ [entry])
  = match context_parts front with
    | Ok lines =>
        match context_part entry with
        | Ok line => Ok (lines ++ [line])
        | Raise e => Raise e
        end
    | Raise e => Raise e
    end.
Proof.
  induction front as [| x front IH]; simpl.
  - by destruct (context_part entry).
  - destruct (context_part x) as [line |]; [| reflexivity].
    rewrite IH.
    destruct (context_parts front) as [lines |]; [| reflexivity].
    by destruct (context_part entry).
Qed.

(** X8. After [store(goal, step, result)] with [step] an object, the digest
    of [goal] for a positive [max_entries] is the digest lines of the last
    [max_entries - 1] earlier entries followed by the line of the new entry:
    its action (or "unknown"), then the result cut to 200 characters.  With
    [max_entries = 1] it is that line alone, whatever was stored before. *)
Theorem recent_context_after_store (goal : string)
        (fields : list (string * json)) (result : string)
        (max_entries : Z) (st : State) :
  0 < max_entries ->
  get_recent_context goal max_entries (store goal (JObj fields) result st).2
  = match context_parts
            (spec_last_entries (max_entries - 1) (retrieve goal st)) with
    | Ok lines =>
        Ok (PyStr.join PyStr.nl
              (lines ++ [ "- " +:+ format_value
                                     (default (JStr "unknown")
                                              (dict_get "action" fields))
                               +:+ ": " +:+ PyStr.preview result ]))
    | Raise e => Raise e
    end.
Proof.
  intros Hpos. unfold get_recent_context.
  rewrite retrieve_store_same.
  set (entry := {| entry_step := JObj fields; entry_result := result;
                   entry_timestamp := (now_isoformat (world st)).1 |}).
  set (entries := retrieve goal st).
  destruct (entries ++ [entry]) as [| x rest] eqn:Hall;
    [by destruct entries |].
  rewrite <- Hall. clear x rest Hall.
  rewrite slice_tail_positive by done.
  assert (Hslice : spec_last_entries max_entries (entries ++ [entry])
                   = spec_last_entries (max_entries - 1) entries ++ [entry]).
  { unfold spec_last_entries. rewrite length_app. simpl length.
    replace (length entries + 1 - Z.to_nat max_entries)%nat
      with (length entries - Z.to_nat (max_entries - 1))%nat by lia.
    rewrite skipn_app.
    replace (length entries - Z.to_nat (max_entries - 1) - length entries)%nat
      with O by lia.
    reflexivity. }
  rewrite Hslice, context_parts_app.
  destruct (context_parts (spec_last_entries (max_entries - 1) entries));
    reflexivity.
Qed.

(** X9. The digest of a goal does not depend on what is stored or cleared
    under another goal, and after [clear_goal(goal)] it is the "no prior
    context" sentinel for every [max_entries]. *)
Theorem recent_context_isolation (goal other : string) (step : json)
        (result : string) (max_entries : Z) (st : State) :
  get_recent_context goal max_entries (clear_goal goal st).2
  = Ok "No prior context available."
  /\ (other <> goal ->
      get_recent_context goal max_entries (store other step result st).2
      = get_recent_context goal max_entries st
      /\ get_recent_context goal max_entries (clear_goal other st).2
         = get_recent_context goal max_entries st).
Proof.
  split.
  - apply get_recent_context_empty.
    unfold retrieve. rewrite clear_goal_data. by rewrite lookup_delete_eq.
  - intros Hne. unfold get_recent_context.
    rewrite retrieve_store_other by done.
    assert (Hkept : retrieve goal (clear_goal other st).2 = retrieve goal st).
    { unfold retrieve. rewrite clear_goal_data.
      rewrite lookup_delete_ne; [reflexivity | congruence]. }
    by rewrite Hkept.
Qed.

End MemoryMore.

Lemma clear_goal_other_witness :
  retrieve "other"
    (clear_goal "demo"
       (store "other" Demo.good_step "kept"
          (Demo.with_history (Ok "") "demo" [Demo.past Demo.good_step "old"])).2).2
  = retrieve "other"
      (store "other" Demo.good_step "kept"
         (Demo.with_history (Ok "") "demo" [Demo.past Demo.good_step "old"])).2.
Proof. apply clear_goal_other. discriminate. Defined.

Lemma store_stats_witness :
  data (Demo.fresh (Ok "")) !! "demo" = None
  /\ total_goals (get_stats (store "demo" Demo.good_step "demo"
                                   (Demo.fresh (Ok ""))).2)
     = total_goals (get_stats (Demo.fresh (Ok ""))) + 1.
Proof.
  split; [reflexivity |].
  destruct (store_stats "demo" Demo.good_step "demo" (Demo.fresh (Ok "")))
    as (_ & Hnew & _).
  apply Hnew. reflexivity.
Defined.

Lemma clear_goal_stats_witness :
  is_Some (data (Demo.with_history (Ok "") "demo"
                   [Demo.past Demo.good_step "old"]) !! "demo")
  /\ total_goals
       (get_stats
          (clear_goal "demo"
             (Demo.with_history (Ok "") "demo"
                [Demo.past Demo.good_step "old"])).2)
     = total_goals
         (get_stats (Demo.with_history (Ok "") "demo"
                       [Demo.past Demo.good_step "old"])) - 1.
Proof.
  assert (Hsome : is_Some (data (Demo.with_history (Ok "") "demo"
                                   [Demo.past Demo.good_step "old"]) !! "demo"))
    by (eexists; reflexivity).
  split; [exact Hsome |].
  destruct (clear_goal_stats "demo"
              (Demo.with_history (Ok "") "demo"
                 [Demo.past Demo.good_step "old"])) as (_ & Hless & _).
  by apply Hless.
Defined.

(** The earlier entry has a step that is no object; the digest of the last
    entry alone is not affected by it. *)
Lemma recent_context_after_store_witness :
  get_recent_context "demo" 1
    (store "demo" (JObj [("action", JStr "echo")]) "fresh"
       (Demo.with_history (Ok "") "demo" [Demo.past JNull "lost"])).2
  = Ok "- echo: fresh".
Proof.
  rewrite recent_context_after_store by lia. reflexivity.
Defined.

Lemma recent_context_isolation_witness :
  "other" <> "demo"
  /\ get_recent_context "demo" 5
       (store "other" Demo.good_step "kept"
          (Demo.with_history (Ok "") "demo" [Demo.past Demo.good_step "old"])).2
     = get_recent_context "demo" 5
         (Demo.with_history (Ok "") "demo" [Demo.past Demo.good_step "old"]).
Proof.
  split; [discriminate |].
  destruct (recent_context_isolation
              "demo" "other" Demo.good_step "kept" 5
              (Demo.with_history (Ok "") "demo"
                 [Demo.past Demo.good_step "old"])) as [_ Hiso].
  apply Hiso. discriminate.
Defined.

(** ** The 200-character preview *)

Lemma string_length_app (a b : string) :
  String.length (a +:+ b) = (String.length a + String.length b)%nat.
Proof. induction a as [| c a IH]; simpl; [reflexivity | by rewrite IH]. Qed.

Lemma take_length (n : nat) (s : string) :
  String.length (PyStr.take n s) = Nat.min n (String.length s).
Proof.
  revert s. induction n as [| n IH]; intros [| c s]; simpl; try reflexivity.
  by rewrite IH.
Qed.

Lemma take_startswith (n : nat) (s : string) :
  PyStr.startswith (PyStr.take n s) s = true.
Proof.
  revert s. induction n as [| n IH]; intros [| c s]; simpl; try reflexivity.
  by rewrite Ascii.eqb_refl, IH.
Qed.

(** X10. The preview used in the digest never exceeds 203 characters: a
    text of at most 200 characters is kept whole, a longer one is replaced
    by its first 200 characters followed by three dots. *)
Theorem preview_bounded (s : string) :
  (String.length (PyStr.preview s) <= 203)%nat
  /\ (PyStr.len s <= 200 -> PyStr.preview s = s)
  /\ (200 < PyStr.len s ->
      PyStr.preview s = PyStr.take 200 s +:+ "..."
      /\ String.length (PyStr.preview s) = 203%nat
      /\ PyStr.startswith (PyStr.take 200 s) s = true).
Proof.
  rewrite preview_spec. unfold PyStr.len.
  destruct (200 <? Z.of_nat (String.length s)) eqn:Hlong.
  - apply Z.ltb_lt in Hlong.
    assert (Hlen : String.length (PyStr.take 200 s +:+ "...") = 203%nat).
    { rewrite string_length_app, take_length. simpl String.length. lia. }
    split; [lia |]. split; [lia |]. intros _.
    split; [reflexivity |]. split; [exact Hlen | apply take_startswith].
  - apply Z.ltb_ge in Hlong.
    split; [lia |]. split; [done | lia].
Qed.

Lemma preview_bounded_witness :
  PyStr.len "short result" <= 200
  /\ PyStr.preview "short result" = "short result".
Proof.
  split; [vm_compute; discriminate |].
  destruct (preview_bounded "short result") as (_ & Hkeep & _).
  apply Hkeep. vm_compute. discriminate.
Defined.

(** ** Extraction of the plan from the model's answer *)

Section Extraction.
Context `{Collaborators}.

Lemma app_cons (x : ascii) (a b : string) :
  String x a +:+ b = String x (a +:+ b).
Proof. reflexivity. Qed.

Lemma app_nil (b : string) : "" +:+ b = b.
Proof. reflexivity. Qed.

Lemma string_app_assoc (a b c : string) : (a +:+ b) +:+ c = a +:+ (b +:+ c).
Proof.
  induction a as [| x a IH]; [reflexivity |].
  rewrite !app_cons. f_equal. exact IH.
Qed.

Lemma len_app (a b : string) : PyStr.len (a +:+ b) = PyStr.len a + PyStr.len b.
Proof. unfold PyStr.len. rewrite string_length_app. lia. Qed.

Lemma len_cons (c : ascii) (s : string) :
  PyStr.len (String c s) = 1 + PyStr.len s.
Proof. unfold PyStr.len. simpl String.length. lia. Qed.

Lemma len_nonneg (s : string) : 0 <= PyStr.len s.
Proof. unfold PyStr.len. lia. Qed.

(** *** [find] and [rfind] *)

Lemma find_from_absent (c : ascii) (s : string) :
  forall i j, 0 <= i -> PyStr.find_from c s i = -1 -> PyStr.find_from c s j = -1.
Proof.
  induction s as [| a s IH]; intros i j Hi Hfind; simpl in *; [reflexivity |].
  destruct (Ascii.eqb a c); [lia |].
  apply (IH (i + 1)); [lia | exact Hfind].
Qed.

Lemma find_cons (c a : ascii) (s : string) :
  PyStr.find c (String a s) = -1 <-> Ascii.eqb a c = false /\ PyStr.find c s = -1.
Proof.
  unfold PyStr.find. simpl.
  destruct (Ascii.eqb a c); split.
  - discriminate.
  - intros [Hfalse _]. discriminate.
  - intros Hfind. split; [reflexivity |]. by apply (find_from_absent c s 1).
  - intros [_ Hfind]. by apply (find_from_absent c s 0).
Qed.

Lemma find_from_app_absent (c : ascii) (p r : string) :
  forall i, PyStr.find c p = -1 ->
            PyStr.find_from c (p +:+ String c r) i = i + PyStr.len p.
Proof.
  induction p as [| a p IH]; intros i Habsent.
  - rewrite app_nil. simpl. rewrite Ascii.eqb_refl. unfold PyStr.len. simpl. lia.
  - apply find_cons in Habsent as [Hne Habsent].
    rewrite app_cons. simpl. rewrite Hne, IH by done. rewrite len_cons. lia.
Qed.

Lemma rfind_from_range (c : ascii) (s : string) :
  forall i last,
    PyStr.rfind_from c s i last = last \/ i <= PyStr.rfind_from c s i last.
Proof.
  induction s as [| a s IH]; intros i last; simpl; [by left |].
  destruct (IH (i + 1) (if Ascii.eqb a c then i else last)) as [Heq | Hge].
  - rewrite Heq. destruct (Ascii.eqb a c); [right; lia | by left].
  - right. lia.
Qed.

Lemma rfind_from_absent (c : ascii) (s : string) :
  forall i last,
    last < i -> PyStr.rfind_from c s i last = last ->
    forall j last', PyStr.rfind_from c s j last' = last'.
Proof.
  induction s as [| a s IH]; intros i last Hlt Hfind j last'; simpl in *;
    [reflexivity |].
  destruct (Ascii.eqb a c).
  - destruct (rfind_from_range c s (i + 1) i) as [Heq | Hge]; lia.
  - apply (IH (i + 1) last); [lia | exact Hfind].
Qed.

Lemma rfind_cons (c a : ascii) (s : string) :
  PyStr.rfind c (String a s) = -1
  <-> Ascii.eqb a c = false /\ PyStr.rfind c s = -1.
Proof.
  unfold PyStr.rfind. simpl.
  destruct (Ascii.eqb a c); split.
  - intros Hfind. change (0 + 1) with 1 in *.
    destruct (rfind_from_range c s 1 0) as [Heq | Hge]; lia.
  - intros [Hfalse _]. discriminate.
  - intros Hfind. change (0 + 1) with 1 in *. split; [reflexivity |].
    apply (rfind_from_absent c s 1 (-1)); [lia | exact Hfind].
  - intros [_ Hfind]. apply (rfind_from_absent c s 0 (-1)); [lia | exact Hfind].
Qed.

Lemma rfind_from_app_absent (c : ascii) (l q : string) :
  forall i last, PyStr.rfind c q = -1 ->
                 PyStr.rfind_from c (l +:+ String c q) i last = i + PyStr.len l.
Proof.
  induction l as [| a l IH]; intros i last Habsent.
  - rewrite app_nil. simpl. rewrite Ascii.eqb_refl.
    rewrite (rfind_from_absent c q 0 (-1)); [| lia | exact Habsent].
    unfold PyStr.len. simpl. lia.
  - rewrite app_cons. simpl. rewrite IH by done. rewrite len_cons. lia.
Qed.

(** *** [strip] removes no character that is not a space *)

Lemma lstrip_app_nonspace (p r : string) (c : ascii) :
  PyStr.is_space c = false ->
  PyStr.lstrip (p +:+ String c r) = PyStr.lstrip p +:+ String c r.
Proof.
  intros Hc. induction p as [| a p IH].
  - rewrite app_nil. simpl. by rewrite Hc.
  - rewrite app_cons. simpl.
    destruct (PyStr.is_space a); [exact IH | reflexivity].
Qed.

Lemma rstrip_app_nonspace (l q : string) (c : ascii) :
  PyStr.is_space c = false ->
  PyStr.rstrip (l +:+ String c q) = l +:+ String c (PyStr.rstrip q).
Proof.
  intros Hc. induction l as [| a l IH].
  - rewrite app_nil. simpl. rewrite Hc. by destruct (PyStr.rstrip q).
  - rewrite !app_cons. simpl. rewrite IH. by destruct l.
Qed.

Lemma find_lstrip_absent (c : ascii) (s : string) :
  PyStr.find c s = -1 -> PyStr.find c (PyStr.lstrip s) = -1.
Proof.
  induction s as [| a s IH]; [done |]. intros Habsent. simpl.
  destruct (PyStr.is_space a); [| exact Habsent].
  apply IH. by apply find_cons in Habsent as [_ ?].
Qed.

Lemma find_rstrip_absent (c : ascii) (s : string) :
  PyStr.find c s = -1 -> PyStr.find c (PyStr.rstrip s) = -1.
Proof.
  induction s as [| a s IH]; [done |]. intros Habsent.
  apply find_cons in Habsent as [Hne Habsent]. simpl.
  destruct (PyStr.rstrip s) as [| b r] eqn:Hr.
  - destruct (PyStr.is_space a); [done |]. by apply find_cons.
  - apply find_cons. split; [exact Hne | by apply IH].
Qed.

Lemma rfind_lstrip_absent (c : ascii) (s : string) :
  PyStr.rfind c s = -1 -> PyStr.rfind c (PyStr.lstrip s) = -1.
Proof.
  induction s as [| a s IH]; [done |]. intros Habsent. simpl.
  destruct (PyStr.is_space a); [| exact Habsent].
  apply IH. by apply rfind_cons in Habsent as [_ ?].
Qed.

Lemma rfind_rstrip_absent (c : ascii) (s : string) :
  PyStr.rfind c s = -1 -> PyStr.rfind c (PyStr.rstrip s) = -1.
Proof.
  induction s as [| a s IH]; [done |]. intros Habsent.
  apply rfind_cons in Habsent as [Hne Habsent]. simpl.
  destruct (PyStr.rstrip s) as [| b r] eqn:Hr.
  - destruct (PyStr.is_space a); [done |]. by apply rfind_cons.
  - apply rfind_cons. split; [exact Hne | by apply IH].
Qed.

(** *** Slices of a concatenation *)

Lemma drop_app (p r : string) : PyStr.drop (String.length p) (p +:+ r) = r.
Proof.
  induction p as [| a p IH]; [by destruct r |].
  rewrite app_cons. simpl. exact IH.
Qed.

Lemma take_app (m q : string) : PyStr.take (String.length m) (m +:+ q) = m.
Proof.
  induction m as [| a m IH]; [by destruct q |].
  rewrite app_cons. simpl. by rewrite IH.
Qed.

Lemma slice_middle (p m q : string) :
  PyStr.slice (p +:+ m +:+ q) (PyStr.len p) (PyStr.len p + PyStr.len m) = m.
Proof.
  unfold PyStr.slice, PyStr.clamp. rewrite !len_app.
  pose proof (len_nonneg p). pose proof (len_nonneg m). pose proof (len_nonneg q).
  rewrite (proj2 (Z.ltb_ge (PyStr.len p) 0)) by lia.
  rewrite (proj2 (Z.ltb_ge (PyStr.len p + PyStr.len m) 0)) by lia.
  rewrite !Z.min_l by lia.
  replace (Z.to_nat (PyStr.len p)) with (String.length p)
    by (unfold PyStr.len; lia).
  replace (Z.to_nat (PyStr.len p + PyStr.len m - PyStr.len p))
    with (String.length m) by (unfold PyStr.len; lia).
  by rewrite drop_app, take_app.
Qed.

Lemma find_from_bound (c : ascii) (s : string) :
  forall i, PyStr.find_from c s i = -1
            \/ (i <= PyStr.find_from c s i < i + PyStr.len s).
Proof.
  induction s as [| a s IH]; intros i; simpl; [by left |].
  rewrite len_cons. pose proof (len_nonneg s).
  destruct (Ascii.eqb a c); [right; lia |].
  destruct (IH (i + 1)) as [Hnone | Hin]; [by left | right; lia].
Qed.

Lemma strip_around_brackets (prefix body suffix : string) :
  PyStr.strip (prefix +:+ String "[" (body +:+ String "]" suffix))
  = PyStr.lstrip prefix
      +:+ String "[" (body +:+ String "]" (PyStr.rstrip suffix)).
Proof.
  unfold PyStr.strip.
  rewrite lstrip_app_nonspace by reflexivity.
  replace (PyStr.lstrip prefix +:+ String "[" (body +:+ String "]" suffix))
    with ((PyStr.lstrip prefix +:+ String "[" body) +:+ String "]" suffix)
    by (by rewrite string_app_assoc, app_cons).
  rewrite rstrip_app_nonspace by reflexivity.
  by rewrite string_app_assoc, app_cons.
Qed.

(** The text handed to [json.loads] when the first "[" opens and the last
    "]" closes the array. *)
Lemma parse_between_brackets (p body q : string) :
  PyStr.find "[" p = -1 -> PyStr.rfind "]" q = -1 ->
  PyStr.find "[" (p +:+ String "[" (body +:+ String "]" q)) = PyStr.len p
  /\ PyStr.rfind "]" (p +:+ String "[" (body +:+ String "]" q))
     = PyStr.len p + 1 + PyStr.len body
  /\ PyStr.slice (p +:+ String "[" (body +:+ String "]" q))
                 (PyStr.len p) (PyStr.len p + 1 + PyStr.len body + 1)
     = String "[" (body +:+ "]").
Proof.
  intros Hp Hq. split; [| split].
  - unfold PyStr.find. rewrite find_from_app_absent by done. lia.
  - unfold PyStr.rfind.
    replace (p +:+ String "[" (body +:+ String "]" q))
      with ((p +:+ String "[" body) +:+ String "]" q)
      by (by rewrite string_app_assoc, app_cons).
    rewrite rfind_from_app_absent by done.
    rewrite len_app, len_cons. lia.
  - replace (p +:+ String "[" (body +:+ String "]" q))
      with (p +:+ String "[" (body +:+ "]") +:+ q)
      by (by rewrite app_cons, string_app_assoc).
    replace (PyStr.len p + 1 + PyStr.len body + 1)
      with (PyStr.len p + PyStr.len (String "[" (body +:+ "]")))
      by (rewrite len_cons, len_app; unfold PyStr.len; simpl; lia).
    apply slice_middle.
Qed.

Lemma parse_around_brackets (prefix body suffix : string) :
  PyStr.find "[" prefix = -1 -> PyStr.rfind "]" suffix = -1 ->
  _parse_plan_response (prefix +:+ String "[" (body +:+ String "]" suffix))
  = match json_loads (String "[" (body +:+ "]")) with
    | Ok (JArr steps) => Ok steps
    | Ok _ => Raise (Exn ValueError "Response is not a list")
    | Raise e =>
        match exn_kind e with
        | JSONDecodeError =>
            Raise (Exn ValueError ("Invalid JSON in response: " +:+ exn_str e))
        | _ => Raise e
        end
    end.
Proof.
  intros Hp Hq. unfold _parse_plan_response.
  rewrite strip_around_brackets.
  destruct (parse_between_brackets (PyStr.lstrip prefix) body
              (PyStr.rstrip suffix)) as (Hfind & Hrfind & Hslice);
    [by apply find_lstrip_absent | by apply rfind_rstrip_absent |].
  rewrite Hfind, Hrfind.
  pose proof (len_nonneg (PyStr.lstrip prefix)).
  pose proof (len_nonneg body).
  rewrite (proj2 (Z.eqb_neq _ (-1))) by lia.
  rewrite (proj2 (Z.eqb_neq _ (-1))) by lia.
  simpl orb. cbv iota. by rewrite Hslice.
Qed.

(** X11. Prose around the array is ignored: when no "[" comes before the
    array and no "]" after it, the answer parses exactly as the array alone
    does, that is as [json.loads] decodes the text from the opening to the
    closing bracket.  Of its failures only a [JSONDecodeError] is turned
    into the [ValueError] "Invalid JSON in response"; any other exception
    of [json.loads] leaves [_parse_plan_response] as it is. *)
Theorem parse_ignores_prose (prefix body suffix : string) :
  PyStr.find "[" prefix = -1 ->
  PyStr.rfind "]" suffix = -1 ->
  _parse_plan_response (prefix +:+ "[" +:+ body +:+ "]" +:+ suffix)
  = _parse_plan_response ("[" +:+ body +:+ "]")
  /\ _parse_plan_response ("[" +:+ body +:+ "]")
     = match json_loads ("[" +:+ body +:+ "]") with
       | Ok (JArr steps) => Ok steps
       | Ok _ => Raise (Exn ValueError "Response is not a list")
       | Raise e =>
           match exn_kind e with
           | JSONDecodeError =>
               Raise (Exn ValueError
                        ("Invalid JSON in response: " +:+ exn_str e))
           | _ => Raise e
           end
       end
  /\ (forall e,
        json_loads ("[" +:+ body +:+ "]") = Raise e ->
        exn_kind e <> JSONDecodeError ->
        _parse_plan_response (prefix +:+ "[" +:+ body +:+ "]" +:+ suffix)
        = Raise e).
Proof.
  intros Hp Hq.
  change (prefix +:+ "[" +:+ body +:+ "]" +:+ suffix)
    with (prefix +:+ String "[" (body +:+ String "]" suffix)).
  change ("[" +:+ body +:+ "]") with ("" +:+ String "[" (body +:+ String "]" "")).
  rewrite (parse_around_brackets prefix body suffix Hp Hq).
  rewrite (parse_around_brackets "" body "") by reflexivity.
  split; [reflexivity |]. split; [reflexivity |].
  intros e Hloads Hclass.
  change ("" +:+ String "[" (body +:+ String "]" ""))
    with (String "[" (body +:+ "]")) in Hloads.
  rewrite Hloads. by destruct (exn_kind e).
Qed.

(** X12. An answer without "[" or without "]" is refused with the
    [ValueError] "No JSON array found in response". *)
Theorem parse_without_brackets (response : string) :
  PyStr.find "[" response = -1 \/ PyStr.rfind "]" response = -1 ->
  _parse_plan_response response
  = Raise (Exn ValueError "No JSON array found in response").
Proof.
  intros Hmissing. unfold _parse_plan_response, PyStr.strip.
  destruct Hmissing as [Hopen | Hclose].
  - rewrite (find_rstrip_absent _ _ (find_lstrip_absent _ _ Hopen)).
    reflexivity.
  - rewrite (rfind_rstrip_absent _ _ (rfind_lstrip_absent _ _ Hclose)).
    by rewrite orb_true_r.
Qed.

(** X13. The guard does not see a "]" that only comes before the first
    "[": the slice between them is empty, and the answer is what decoding
    the empty text gives, so with the [JSONDecodeError] that [json.loads]
    raises on the empty text it is the [ValueError] that wraps its
    message. *)
Theorem parse_reversed_brackets (response : string) :
  PyStr.rfind "]" (PyStr.strip response) <> -1 ->
  PyStr.rfind "]" (PyStr.strip response)
  < PyStr.find "[" (PyStr.strip response) ->
  _parse_plan_response response
  = match json_loads "" with
    | Ok (JArr steps) => Ok steps
    | Ok _ => Raise (Exn ValueError "Response is not a list")
    | Raise e =>
        match exn_kind e with
        | JSONDecodeError =>
            Raise (Exn ValueError ("Invalid JSON in response: " +:+ exn_str e))
        | _ => Raise e
        end
    end
  /\ (forall msg,
        json_loads "" = Raise (Exn JSONDecodeError msg) ->
        _parse_plan_response response
        = Raise (Exn ValueError ("Invalid JSON in response: " +:+ msg))).
Proof.
  intros Hclose Horder.
  assert (Hparse : _parse_plan_response response
                   = match json_loads "" with
                     | Ok (JArr steps) => Ok steps
                     | Ok _ => Raise (Exn ValueError "Response is not a list")
                     | Raise e =>
                         match exn_kind e with
                         | JSONDecodeError =>
                             Raise (Exn ValueError
                                      ("Invalid JSON in response: "
                                         +:+ exn_str e))
                         | _ => Raise e
                         end
                     end).
  { unfold _parse_plan_response.
    set (s := PyStr.strip response) in *.
    destruct (rfind_from_range "]" s 0 (-1)) as [Hnone | Hge];
      [by destruct Hclose |].
    fold (PyStr.rfind "]" s) in Hge.
    destruct (find_from_bound "[" s 0) as [Hnone | Hin];
      fold (PyStr.find "[" s) in *; [lia |].
    rewrite (proj2 (Z.eqb_neq (PyStr.find "[" s) (-1))) by lia.
    rewrite (proj2 (Z.eqb_neq (PyStr.rfind "]" s) (-1))) by lia.
    simpl orb. cbv iota.
    assert (Hempty : PyStr.slice s (PyStr.find "[" s) (PyStr.rfind "]" s + 1)
                     = "").
    { unfold PyStr.slice, PyStr.clamp.
      rewrite (proj2 (Z.ltb_ge (PyStr.find "[" s) 0)) by lia.
      rewrite (proj2 (Z.ltb_ge (PyStr.rfind "]" s + 1) 0)) by lia.
      rewrite !Z.min_l by lia.
      replace (Z.to_nat (PyStr.rfind "]" s + 1 - PyStr.find "[" s))
        with O by lia.
      by destruct (PyStr.drop _ s). }
    by rewrite Hempty. }
  split; [exact Hparse |].
  intros msg Hloads. by rewrite Hparse, Hloads.
Qed.

End Extraction.

Lemma parse_ignores_prose_witness :
  @_parse_plan_response Demo.toy
     ("Here is the plan: " +:+ "[" +:+ "" +:+ "]" +:+ " Done.")
  = Ok []
  /\ @_parse_plan_response Nested.limited
       ("Plan: " +:+ "["
          +:+ (Nested.times "[" 1500 +:+ Nested.times "]" 1500)
          +:+ "]" +:+ "")
     = Raise (Exn RuntimeError
                "maximum recursion depth exceeded while decoding a JSON array from a unicode string").
Proof.
  split.
  - destruct (@parse_ignores_prose Demo.toy "Here is the plan: " "" " Done.")
      as (Hsame & Halone & _); [reflexivity | reflexivity |].
    rewrite Hsame, Halone. reflexivity.
  - destruct (@parse_ignores_prose Nested.limited "Plan: "
                (Nested.times "[" 1500 +:+ Nested.times "]" 1500) "")
      as (_ & _ & Hescapes); [reflexivity | reflexivity |].
    apply Hescapes; [vm_compute; reflexivity | discriminate].
Defined.

Lemma parse_without_brackets_witness :
  @_parse_plan_response Demo.toy "Error: Unable to generate response"
  = Raise (Exn ValueError "No JSON array found in response").
Proof. apply parse_without_brackets. left. reflexivity. Defined.

Lemma parse_reversed_brackets_witness :
  @_parse_plan_response Demo.toy "] then ["
  = Raise (Exn ValueError
             "Invalid JSON in response: Expecting value: line 1 column 1 (char 0)").
Proof.
  destruct (@parse_reversed_brackets Demo.toy "] then [") as [_ Hwrapped].
  - vm_compute. discriminate.
  - vm_compute. reflexivity.
  - apply Hwrapped. reflexivity.
Defined.

(** ** Validation, once more *)

Section ValidationMore.
Context `{Collaborators}.

Lemma spec_keeps_coerce (available_skills : list string) (step : json) :
  spec_keeps available_skills step = true ->
  spec_keeps available_skills (spec_coerce_params step) = true.
Proof.
  destruct step as [| b | z | f | s | items | fields]; try discriminate.
  unfold spec_coerce_params.
  destruct (dict_get "params" fields) as [[| b | z | f | s | items | kw] |];
    try done; simpl; by rewrite dict_get_set_other.
Qed.

Lemma spec_coerce_idempotent (step : json) :
  spec_coerce_params (spec_coerce_params step) = spec_coerce_params step.
Proof.
  destruct step as [| b | z | f | s | items | fields]; try reflexivity.
  simpl.
  destruct (dict_get "params" fields) as [[| b | z | f | s | items | kw] |] eqn:Hp;
    simpl; rewrite ?dict_get_set_same, ?Hp; reflexivity.
Qed.

Lemma filter_keeps_coerced (available_skills : list string) (steps : list json) :
  List.filter (spec_keeps available_skills)
    (map spec_coerce_params (List.filter (spec_keeps available_skills) steps))
  = map spec_coerce_params (List.filter (spec_keeps available_skills) steps).
Proof.
  induction steps as [| step rest IH]; [reflexivity |].
  simpl. destruct (spec_keeps available_skills step) eqn:Hkeep; [| exact IH].
  simpl. rewrite (spec_keeps_coerce _ _ Hkeep). by rewrite IH.
Qed.

(** X14. Validating a validated plan changes nothing. *)
Theorem validate_steps_idempotent (steps : list json)
        (available_skills : list string) :
  _validate_steps (_validate_steps steps available_skills) available_skills
  = _validate_steps steps available_skills.
Proof.
  rewrite !validate_steps_filter, filter_keeps_coerced.
  rewrite map_map. apply map_ext. intros step. apply spec_coerce_idempotent.
Qed.

Lemma coerced_shape (available_skills : list string) (step : json) :
  spec_keeps available_skills step = true ->
  exists fields name kwargs,
    spec_coerce_params step = JObj fields
    /\ dict_get "action" fields = Some (JStr name)
    /\ name <> ""
    /\ In name available_skills
    /\ dict_get "params" fields = Some (JObj kwargs).
Proof.
  destruct step as [| b | z | f | s | items | fields]; try discriminate.
  simpl. intros Hkeep.
  destruct (dict_get "action" fields) as [[| b | z | f | name | items | fs] |] eqn:Ha;
    try discriminate.
  apply andb_prop in Hkeep as [Hnonempty Hlisted].
  assert (Hname : name <> "").
  { intros ->. discriminate. }
  assert (Hin : In name available_skills).
  { apply existsb_exists in Hlisted as (x & Hx & Heq).
    apply String.eqb_eq in Heq. by subst x. }
  destruct (dict_get "params" fields) as [[| b | z | f | s | items | kw] |] eqn:Hp;
    try (exists (dict_set "params" (JObj []) fields), name, [];
         rewrite dict_get_set_other by discriminate;
         by rewrite dict_get_set_same).
  by exists fields, name, kw.
Qed.

Lemma resolve_listed (self : Registry) (name : string) :
  In name (list_skills self) ->
  exists func, resolve self (JStr name) = Ok (Some func).
Proof.
  intros Hin. apply dict_get_keys in Hin as [func Hget].
  exists func. simpl. by rewrite Hget.
Qed.

(** X15. Validation never lengthens the plan, and each step it returns is
    an object whose [action] is a non-empty string of the list of skills
    and whose [params] is an object; when the list is the one the registry
    gives, the registry resolves that action. *)
Theorem validated_steps_resolve (registry : Registry) (steps : list json) :
  (length (_validate_steps steps (list_skills registry)) <= length steps)%nat
  /\ Forall
       (fun step =>
          exists fields name kwargs func,
            step = JObj fields
            /\ dict_get "action" fields = Some (JStr name)
            /\ name <> ""
            /\ In name (list_skills registry)
            /\ dict_get "params" fields = Some (JObj kwargs)
            /\ resolve registry (JStr name) = Ok (Some func))
       (_validate_steps steps (list_skills registry)).
Proof.
  rewrite validate_steps_filter. split.
  - rewrite length_map. apply List.filter_length_le.
  - induction steps as [| step rest IH]; simpl; [constructor |].
    destruct (spec_keeps (list_skills registry) step) eqn:Hkeep; [| exact IH].
    simpl. constructor; [| exact IH].
    destruct (coerced_shape _ _ Hkeep)
      as (fields & name & kwargs & Hshape & Haction & Hname & Hin & Hparams).
    destruct (resolve_listed registry name Hin) as [func Hres].
    by exists fields, name, kwargs, func.
Qed.

End ValidationMore.

(** ** The planner as a whole *)

Section PlannerMore.
Context `{Collaborators}.

Lemma filter_nil_all_false {A : Type} (f : A -> bool) (l : list A) :
  List.filter f l = [] -> Forall (fun x => f x = false) l.
Proof.
  induction l as [| x l IH]; simpl; [constructor |].
  destruct (f x) eqn:Hx; [discriminate |].
  intros Hnil. constructor; [exact Hx | by apply IH].
Qed.

Lemma fallback_plan_nonempty (goal : string) : _get_fallback_plan goal <> [].
Proof. unfold _get_fallback_plan. by destruct (_ || _). Qed.

(** X16. [plan_steps] never raises and changes neither the memory nor the
    record of interactions; every step it returns is an object with an
    [action]; and it returns an empty plan only when the model's answer did
    parse and none of its candidates passed validation. *)
Theorem plan_steps_never_raises (registry : Registry)
        (goal prior_context : string) (st : State) :
  exists plan w,
    plan_steps registry goal prior_context st
    = (Ok plan, {| data := data st; world := w; events := events st |})
    /\ Forall has_action plan
    /\ (plan = [] ->
        exists steps,
          _parse_plan_response
            (call_model
               (plan_prompt goal prior_context
                  (_format_skills_description (list_skills registry)))
               (Some 1024) (Some (3 # 10)%Q) (world st)).1
          = Ok steps
          /\ Forall (fun step => spec_keeps (list_skills registry) step = false)
                    steps).
Proof.
  unfold plan_steps, plan_attempt. unfold_run.
  destruct (call_model _ _ _ (world st)) as [response w]. simpl.
  destruct (_parse_plan_response response) as [steps | e].
  - eexists _, w. split; [reflexivity |].
    split; [apply validate_steps_have_action |].
    intros Hempty. exists steps. split; [reflexivity |].
    rewrite validate_steps_filter in Hempty.
    apply map_eq_nil in Hempty. by apply filter_nil_all_false.
  - eexists _, w. split; [reflexivity |].
    split; [apply fallback_plan_has_action |].
    intros Hempty. by destruct (fallback_plan_nonempty goal).
Qed.

End PlannerMore.

Lemma plan_steps_never_raises_witness :
  exists steps,
    @_parse_plan_response Demo.toy "[]" = Ok steps
    /\ Forall (fun step => spec_keeps ["echo"] step = false) steps.
Proof.
  destruct (plan_steps_never_raises Demo.toy_registry "demo" ""
              (Demo.fresh (Ok "[]"))) as (plan & w & Hrun & _ & Hempty).
  apply Hempty.
  vm_compute in Hrun. by injection Hrun as <- _.
Defined.

(** ** The agent loop and the memory *)

Section AgentMore.
Context `{Collaborators}.
Variable registry : Registry.

Lemma execute_step_resolve_fails (goal : string) (fields : list (string * json))
      (action : json) (st : State) (e : exn) :
  py_get (JObj fields) "action" JNull = Ok action ->
  resolve registry action = Raise e ->
  _execute_step registry goal (JObj fields) st
  = (Ok false,
     (store goal (JObj fields) ("Error: " +:+ exn_str e)
            {| data := data st; world := world st;
               events := events st ++ [EvResolve action] |}).2).
Proof.
  intros Hget Hres. unfold _execute_step. rewrite Hget.
  unfold execute_attempt, resolve_skill. unfold_run. simpl.
  rewrite Hres.
  by rewrite !store_unfold.
Qed.

(** Running all of [steps] appends one entry per step to the goal's bucket,
    holding the steps in their order. *)
Lemma execute_plan_records (goal : string) (m : Z) (steps : list json) :
  Forall has_action steps ->
  forall (i success_count : Z) (st : State),
    Z.of_nat (length steps) <= Z.max 0 (m - i + 1) ->
    exists cnt st' new,
      execute_plan registry goal m i steps success_count st = (Ok cnt, st')
      /\ success_count <= cnt <= success_count + Z.of_nat (length steps)
      /\ retrieve goal st' = retrieve goal st ++ new
      /\ map entry_step new = steps
      /\ (forall other, other <> goal ->
            retrieve other st' = retrieve other st).
Proof.
  induction 1 as [| step rest (fields & action & -> & Haction) _ IH];
    intros i c st Hm.
  - exists c, st, []. simpl. rewrite app_nil_r. repeat split; try lia; done.
  - simpl length in Hm. simpl execute_plan.
    rewrite (proj2 (Z.ltb_ge m i)) by lia.
    unfold_run. simpl py_getitem. rewrite Haction.
    destruct (execute_step_effect registry goal fields st)
      as (b & st1 & Hstep & _ & _ & (r & ts & Hbucket & _) & Hother).
    rewrite Hstep.
    destruct (IH (i + 1) (if b then c + 1 else c) st1) as
      (cnt & st2 & new & Hrest & Hcnt & Hnew & Hsteps & Hother2); [lia |].
    exists cnt, st2,
      ({| entry_step := JObj fields; entry_result := r;
          entry_timestamp := ts |} :: new).
    split; [exact Hrest |]. simpl length.
    split; [destruct b; lia |]. split; [| split].
    + rewrite Hnew, Hbucket. by rewrite <- app_assoc.
    + simpl. by rewrite Hsteps.
    + intros other Hne. by rewrite Hother2, Hother.
Qed.

Lemma success_rate_none (plan : list json) :
  Qgtb (success_rate 0 plan) (1 # 2) = false.
Proof.
  destruct plan as [| step rest]; [reflexivity |].
  apply not_true_is_false. intros Htrue.
  apply (success_rate_threshold 0 (step :: rest)) in Htrue; [| done].
  lia.
Qed.

(** The two ways a run can go: the recall of context raises, or the plan is
    made and its first [max_iterations] steps are run. *)
Lemma run_agent_cases (goal : string) (max_iterations : Z) (st : State) :
  (exists e,
      get_recent_context goal 5 st = Raise e
      /\ run_agent registry goal max_iterations st = (Ok false, st))
  \/ (exists prior_context plan st1 cnt st2 new,
         get_recent_context goal 5 st = Ok prior_context
         /\ plan_steps registry goal prior_context st = (Ok plan, st1)
         /\ data st1 = data st
         /\ events st1 = events st
         /\ execute_plan registry goal max_iterations 1
                         (firstn (Z.to_nat max_iterations) plan) 0 st1
            = (Ok cnt, st2)
         /\ 0 <= cnt <= Z.max 0 max_iterations
         /\ retrieve goal st2 = retrieve goal st ++ new
         /\ map entry_step new = firstn (Z.to_nat max_iterations) plan
         /\ (forall other, other <> goal ->
               retrieve other st2 = retrieve other st)
         /\ run_agent registry goal max_iterations st
            = (Ok (Qgtb (success_rate cnt plan) (1 # 2)), st2)).
Proof.
  destruct (get_recent_context goal 5 st) as [prior_context | e] eqn:Hctx.
  - right.
    destruct (plan_steps_shape registry goal prior_context st)
      as (plan & w & Hplan & Hwf).
    set (st1 := {| data := data st; world := w; events := events st |}) in *.
    set (prefix := firstn (Z.to_nat max_iterations) plan).
    assert (Hprefix_wf : Forall has_action prefix) by (by apply Forall_take).
    destruct (execute_plan_records goal max_iterations prefix Hprefix_wf 1 0 st1)
      as (cnt & st2 & new & Hexec & Hcnt & Hnew & Hsteps & Hother);
      [unfold prefix; rewrite length_firstn; lia |].
    assert (Hwhole : execute_plan registry goal max_iterations 1 plan 0 st1
                     = (Ok cnt, st2)).
    { rewrite execute_plan_prefix.
      replace (Z.to_nat (max_iterations - 1 + 1))
        with (Z.to_nat max_iterations) by lia.
      exact Hexec. }
    exists prior_context, plan, st1, cnt, st2, new.
    repeat split; try done.
    + lia.
    + assert (length prefix <= Z.to_nat max_iterations)%nat
        by (unfold prefix; rewrite length_firstn; lia).
      lia.
    + rewrite (run_agent_unfold registry goal max_iterations st st1
                 prior_context plan Hctx Hplan).
      destruct plan as [| step rest] eqn:Hp.
      * unfold prefix in Hexec. rewrite firstn_nil in Hexec. simpl in Hexec.
        by injection Hexec as <- <-.
      * by rewrite (log_plan_ok _ Hwf), Hwhole.
  - left. exists e. split; [reflexivity |].
    unfold run_agent, run_attempt, recent_context. unfold_run.
    by rewrite Hctx.
Qed.

(** X18. A run only appends to the bucket of its own goal, at most
    [max_iterations] entries, and leaves the bucket of every other goal as
    it was. *)
Theorem run_agent_appends_to_goal (goal : string) (max_iterations : Z)
        (st : State) :
  (exists new,
      retrieve goal (run_agent registry goal max_iterations st).2
      = retrieve goal st ++ new
      /\ Z.of_nat (length new) <= Z.max 0 max_iterations)
  /\ (forall other, other <> goal ->
        retrieve other (run_agent registry goal max_iterations st).2
        = retrieve other st).
Proof.
  destruct (run_agent_cases goal max_iterations st)
    as [(e & _ & Hrun)
       | (ctx & plan & st1 & cnt & st2 & new & _ & _ & _ & _ & _ & _
          & Hnew & Hsteps & Hother & Hrun)];
    rewrite Hrun; cbn [snd].
  - split; [| done]. exists []. rewrite app_nil_r. split; [done | simpl; lia].
  - split; [| exact Hother]. exists new. split; [exact Hnew |].
    rewrite <- (length_map entry_step), Hsteps, length_firstn. lia.
Qed.

(** X19. The entries a run adds hold, in order, the steps it ran: the first
    [max_iterations] steps of the plan, or the whole plan when it is
    shorter. *)
Theorem run_agent_records_steps (goal : string) (max_iterations : Z)
        (st st1 : State) (prior_context : string) (plan : list json) :
  get_recent_context goal 5 st = Ok prior_context ->
  plan_steps registry goal prior_context st = (Ok plan, st1) ->
  exists new,
    retrieve goal (run_agent registry goal max_iterations st).2
    = retrieve goal st ++ new
    /\ map entry_step new = firstn (Z.to_nat max_iterations) plan
    /\ (Z.of_nat (length plan) <= max_iterations ->
        map entry_step new = plan).
Proof.
  intros Hctx Hplan.
  destruct (run_agent_cases goal max_iterations st)
    as [(e & Hraise & _)
       | (ctx & plan' & st1' & cnt & st2 & new & Hctx' & Hplan' & _ & _ & _ & _
          & Hnew & Hsteps & _ & Hrun)]; [congruence |].
  rewrite Hctx in Hctx'. injection Hctx' as <-.
  rewrite Hplan in Hplan'. injection Hplan' as <- <-.
  rewrite Hrun. cbn [snd]. exists new.
  split; [exact Hnew |]. split; [exact Hsteps |].
  intros Hall. rewrite Hsteps. apply firstn_all2. lia.
Qed.

(** X20. With [max_iterations] at most zero a run executes nothing and
    returns [False]: memory and record of interactions are as before. *)
Theorem run_agent_no_iterations (goal : string) (max_iterations : Z)
        (st : State) :
  max_iterations <= 0 ->
  (run_agent registry goal max_iterations st).1 = Ok false
  /\ data (run_agent registry goal max_iterations st).2 = data st
  /\ events (run_agent registry goal max_iterations st).2 = events st.
Proof.
  intros Hcap.
  destruct (run_agent_cases goal max_iterations st)
    as [(e & _ & Hrun)
       | (ctx & plan & st1 & cnt & st2 & new & _ & _ & Hdata & Hevents & Hexec
          & _ & _ & _ & _ & Hrun)];
    rewrite Hrun; cbn [fst snd]; [done |].
  replace (Z.to_nat max_iterations) with O in Hexec by lia.
  simpl in Hexec. injection Hexec as <- <-.
  by rewrite success_rate_none.
Qed.

(** X21. A cap of at most half the length of the plan makes the run return
    [False], whatever the skills do: the successes cannot outnumber half of
    the planned steps. *)
Theorem run_agent_cap_at_most_half (goal : string) (max_iterations : Z)
        (st st1 : State) (prior_context : string) (plan : list json) :
  get_recent_context goal 5 st = Ok prior_context ->
  plan_steps registry goal prior_context st = (Ok plan, st1) ->
  2 * max_iterations <= Z.of_nat (length plan) ->
  (run_agent registry goal max_iterations st).1 = Ok false.
Proof.
  intros Hctx Hplan Hhalf.
  destruct (run_agent_cases goal max_iterations st)
    as [(e & Hraise & _)
       | (ctx & plan' & st1' & cnt & st2 & new & Hctx' & Hplan' & _ & _ & _
          & Hcnt & _ & _ & _ & Hrun)]; [congruence |].
  rewrite Hctx in Hctx'. injection Hctx' as <-.
  rewrite Hplan in Hplan'. injection Hplan' as <- <-.
  rewrite Hrun. cbn [fst]. f_equal.
  destruct plan as [| step rest]; [reflexivity |].
  apply not_true_is_false. intros Htrue.
  apply (success_rate_threshold cnt (step :: rest)) in Htrue; [| done].
  lia.
Qed.

End AgentMore.

Lemma run_agent_records_steps_witness :
  exists new,
    retrieve "demo"
      (run_agent Demo.toy_registry "demo" 2
         (Demo.fresh (Ok (Demo.plan_text [true; true; true])))).2
    = retrieve "demo" (Demo.fresh (Ok (Demo.plan_text [true; true; true])))
        ++ new
    /\ map entry_step new = [Demo.good_step; Demo.good_step].
Proof.
  destruct (run_agent_records_steps
              Demo.toy_registry "demo" 2
              (Demo.fresh (Ok (Demo.plan_text [true; true; true])))
              (Demo.fresh (Ok (Demo.plan_text [true; true; true])))
              no_prior_context
              (Demo.validated_plan [true; true; true]))
    as (new & Hnew & Hsteps & _).
  - vm_compute. reflexivity.
  - vm_compute. reflexivity.
  - exists new. split; [exact Hnew | exact Hsteps].
Defined.

Lemma run_agent_no_iterations_witness :
  (run_agent Demo.toy_registry "demo" 0
     (Demo.fresh (Ok (Demo.plan_text [true; true; true])))).1 = Ok false
  /\ data (run_agent Demo.toy_registry "demo" 0
             (Demo.fresh (Ok (Demo.plan_text [true; true; true])))).2
     = data (Demo.fresh (Ok (Demo.plan_text [true; true; true])))
  /\ events (run_agent Demo.toy_registry "demo" 0
               (Demo.fresh (Ok (Demo.plan_text [true; true; true])))).2
     = events (Demo.fresh (Ok (Demo.plan_text [true; true; true]))).
Proof.
  apply (run_agent_no_iterations Demo.toy_registry "demo" 0
           (Demo.fresh (Ok (Demo.plan_text [true; true; true])))).
  lia.
Defined.

Lemma run_agent_cap_at_most_half_witness :
  (run_agent Demo.toy_registry "demo" 2
     (Demo.fresh (Ok (Demo.plan_text [true; true; true; false])))).1
  = Ok false.
Proof.
  apply (run_agent_cap_at_most_half
           Demo.toy_registry "demo" 2
           (Demo.fresh (Ok (Demo.plan_text [true; true; true; false])))
           (Demo.fresh (Ok (Demo.plan_text [true; true; true; false])))
           no_prior_context
           (Demo.validated_plan [true; true; true; false])).
  - vm_compute. reflexivity.
  - vm_compute. reflexivity.
  - simpl. lia.
Defined.

(** ** One step *)

Section StepOutcomes.
Context `{Collaborators}.
Variable registry : Registry.

(** When no planned action resolves, no step succeeds. *)
Lemma execute_plan_unresolved (goal : string) (m : Z) (steps : list json) :
  (forall action, exists e, resolve registry action = Raise e) ->
  Forall has_action steps ->
  forall (i success_count : Z) (st : State),
  exists st',
    execute_plan registry goal m i steps success_count st
    = (Ok success_count, st').
Proof.
  intros Hnone.
  induction 1 as [| step rest (fields & action & -> & Haction) _ IH];
    intros i c st.
  - by exists st.
  - simpl execute_plan. destruct (m <? i); [by exists st |].
    unfold_run. simpl py_getitem. rewrite Haction.
    destruct (Hnone action) as [e Hres].
    rewrite (execute_step_resolve_fails registry goal fields action st e);
      [| by simpl; rewrite Haction | exact Hres].
    apply IH.
Qed.

(** X23. A step whose action names no registered skill fails without
    calling anything: [_execute_step] returns [False] after one resolution
    and one memory write, which records the step with the message of the
    registry as its result. *)
Theorem execute_step_unknown_skill (goal name : string)
        (fields : list (string * json)) (st : State) :
  dict_get "action" fields = Some (JStr name) ->
  dict_get name registry = None ->
  exists st',
    _execute_step registry goal (JObj fields) st = (Ok false, st')
    /\ retrieve goal st'
       = retrieve goal st
           ++ [ {| entry_step := JObj fields;
                   entry_result := "Error: Skill '" +:+ name
                                     +:+ "' not found in registry";
                   entry_timestamp := (now_isoformat (world st)).1 |} ]
    /\ events st'
       = events st
           ++ [ EvResolve (JStr name);
                EvStore goal (JObj fields)
                        ("Error: Skill '" +:+ name
                           +:+ "' not found in registry") ].
Proof.
  intros Haction Hmissing.
  rewrite (execute_step_resolve_fails registry goal fields (JStr name) st
             (Exn ValueError ("Skill '" +:+ name
                                +:+ "' not found in registry")));
    [| by simpl; rewrite Haction | by simpl; rewrite Hmissing].
  eexists. split; [reflexivity |]. split.
  - by rewrite retrieve_store_same.
  - rewrite store_unfold. cbn [snd events exn_str]. by rewrite <- app_assoc.
Qed.

(** X24. A step whose skill returns is recorded as it is: [_execute_step]
    returns [True] after exactly one resolution, one call of the skill with
    the step's [params] as keyword arguments and one memory write, and the
    entry appended to the goal's bucket holds the step and the skill's
    result unchanged. *)
Theorem execute_step_success (goal name result : string)
        (fields kwargs : list (string * json)) (func : capability)
        (w : World) (st : State) :
  dict_get "action" fields = Some (JStr name) ->
  dict_get "params" fields = Some (JObj kwargs) ->
  dict_get name registry = Some func ->
  func kwargs (world st) = (Ok result, w) ->
  exists st',
    _execute_step registry goal (JObj fields) st = (Ok true, st')
    /\ retrieve goal st'
       = retrieve goal st
           ++ [ {| entry_step := JObj fields; entry_result := result;
                   entry_timestamp := (now_isoformat w).1 |} ]
    /\ (forall other, other <> goal -> retrieve other st' = retrieve other st)
    /\ events st'
       = events st
           ++ [ EvResolve (JStr name); EvInvoke (JStr name) kwargs;
                EvStore goal (JObj fields) result ].
Proof.
  intros Haction Hparams Hskill Hcall.
  unfold _execute_step. simpl py_get. rewrite Haction, Hparams.
  unfold execute_attempt, resolve_skill, invoke. unfold_run.
  simpl. rewrite Hskill. simpl. rewrite Hcall.
  set (mid := {| data := data st; world := w;
                 events := (events st ++ [EvResolve (JStr name)])
                             ++ [EvInvoke (JStr name) kwargs] |}).
  destruct (store goal (JObj fields) result mid) as [r st'] eqn:Hstore.
  assert (Hst' : st' = (store goal (JObj fields) result mid).2)
    by (by rewrite Hstore).
  rewrite store_unfold in Hstore. injection Hstore as <- _.
  exists st'. split; [reflexivity |]. subst st'. split; [| split].
  - by rewrite retrieve_store_same.
  - intros other Hne. by rewrite retrieve_store_other.
  - rewrite store_unfold. cbn [snd events mid]. by rewrite <- !app_assoc.
Qed.

End StepOutcomes.

Lemma execute_step_unknown_skill_witness :
  exists st',
    _execute_step Demo.toy_registry "demo" Demo.unknown_step
                  (Demo.fresh (Ok "")) = (Ok false, st')
    /\ map entry_result (retrieve "demo" st')
       = ["Error: Skill 'fly' not found in registry"].
Proof.
  destruct (execute_step_unknown_skill
              Demo.toy_registry "demo" "fly"
              [("action", JStr "fly"); ("params", JObj [])]
              (Demo.fresh (Ok "")))
    as (st' & Hrun & Hbucket & _).
  - reflexivity.
  - reflexivity.
  - exists st'. split; [exact Hrun |]. rewrite Hbucket. reflexivity.
Defined.

Lemma execute_step_success_witness :
  exists st',
    _execute_step Demo.toy_registry "demo" Demo.good_step
                  (Demo.fresh (Ok "")) = (Ok true, st')
    /\ map entry_result (retrieve "demo" st') = ["demo"].
Proof.
  destruct (execute_step_success
              Demo.toy_registry "demo" "echo" "demo"
              [("action", JStr "echo"); ("params", JObj [("task", JStr "demo")])]
              [("task", JStr "demo")] Demo.echo
              (world (Demo.fresh (Ok ""))) (Demo.fresh (Ok "")))
    as (st' & Hrun & Hbucket & _).
  - reflexivity.
  - reflexivity.
  - reflexivity.
  - reflexivity.
  - exists st'. split; [exact Hrun |]. rewrite Hbucket. reflexivity.
Defined.

Section EmptyRegistry.
Context `{Collaborators}.

Lemma resolve_empty (action : json) :
  exists e, resolve [] action = Raise e.
Proof.
  destruct (resolve_cases [] action)
    as [(s & func & _ & Hlook & _) | Hraise]; [discriminate | exact Hraise].
Qed.

(** X22. With an empty registry, which is what [_load_skills] leaves when
    the skills cannot be imported, every run returns [False]. *)
Theorem run_agent_empty_registry (goal : string) (max_iterations : Z)
        (st : State) :
  (run_agent [] goal max_iterations st).1 = Ok false
  /\ (forall e, exn_kind e = ImportError -> _load_skills (Raise e) [] = Ok []).
Proof.
  split; [| intros e He; unfold _load_skills; simpl; by rewrite He].
  destruct (run_agent_cases [] goal max_iterations st)
    as [(e & _ & Hrun)
       | (ctx & plan & st1 & cnt & st2 & new & _ & Hplan & _ & _ & Hexec
          & _ & _ & _ & _ & Hrun)];
    rewrite Hrun; cbn [fst]; [done |].
  destruct (plan_steps_shape [] goal ctx st) as (plan' & w & Hplan' & Hwf).
  rewrite Hplan in Hplan'. injection Hplan' as <- _.
  destruct (execute_plan_unresolved [] goal max_iterations
              (firstn (Z.to_nat max_iterations) plan)
              resolve_empty (Forall_take _ _ _ Hwf) 1 0 st1) as [st' Hnone].
  rewrite Hexec in Hnone. injection Hnone as -> _.
  by rewrite success_rate_none.
Qed.

(** X17. A failing model does not reach the planner as an exception:
    [call_model] answers with its fixed error text, that text holds no
    array, and [plan_steps] returns the fallback plan, with the memory as it
    was. *)
Theorem plan_steps_when_model_fails (registry : Registry)
        (goal prior_context : string) (st : State) (e : exn) (w : World) :
  llm_generate (plan_prompt goal prior_context
                  (_format_skills_description (list_skills registry)))
               1024 (3 # 10)%Q (world st) = (Raise e, w) ->
  call_model (plan_prompt goal prior_context
                (_format_skills_description (list_skills registry)))
             (Some 1024) (Some (3 # 10)%Q) (world st)
  = ("Error: Unable to generate response", w)
  /\ _parse_plan_response "Error: Unable to generate response"
     = Raise (Exn ValueError "No JSON array found in response")
  /\ plan_steps registry goal prior_context st
     = (Ok (_get_fallback_plan goal),
        {| data := data st; world := w; events := events st |}).
Proof.
  intros Hfail. split; [| split].
  - unfold call_model. simpl. by rewrite Hfail.
  - vm_compute. reflexivity.
  - by apply (plan_steps_model_failure registry goal prior_context st e).
Qed.

(** X25. [clear_agent_memory] clears the bucket of a named goal and nothing
    else; called without a goal or with the empty string it changes
    nothing, so entries stored under the empty goal stay. *)
Theorem clear_agent_memory_cases (goal : string) (st : State) :
  clear_agent_memory None st = (Ok tt, st)
  /\ clear_agent_memory (Some "") st = (Ok tt, st)
  /\ (goal <> "" ->
      (clear_agent_memory (Some goal) st).1 = Ok tt
      /\ retrieve goal (clear_agent_memory (Some goal) st).2 = []
      /\ forall other, other <> goal ->
           retrieve other (clear_agent_memory (Some goal) st).2
           = retrieve other st).
Proof.
  split; [reflexivity |]. split; [reflexivity |].
  intros Hgoal.
  assert (Hclear : clear_agent_memory (Some goal) = clear_goal goal).
  { unfold clear_agent_memory.
    by rewrite (proj2 (String.eqb_neq goal "") Hgoal). }
  rewrite Hclear. split; [| split].
  - unfold clear_goal, _save. by destruct (data st !! goal).
  - unfold retrieve. rewrite clear_goal_data. by rewrite lookup_delete_eq.
  - intros other Hne. unfold retrieve. rewrite clear_goal_data.
    rewrite lookup_delete_ne; [reflexivity | congruence].
Qed.

End EmptyRegistry.

Lemma plan_steps_when_model_fails_witness :
  plan_steps Demo.toy_registry "demo" ""
             (Demo.fresh (Raise (Exn RuntimeError "model crashed")))
  = (Ok (_get_fallback_plan "demo"),
     Demo.fresh (Raise (Exn RuntimeError "model crashed"))).
Proof.
  destruct (plan_steps_when_model_fails Demo.toy_registry "demo" ""
              (Demo.fresh (Raise (Exn RuntimeError "model crashed")))
              (Exn RuntimeError "model crashed")
              (world (Demo.fresh (Raise (Exn RuntimeError "model crashed")))))
    as (_ & _ & Hplan).
  - reflexivity.
  - exact Hplan.
Defined.

Lemma run_agent_appends_to_goal_witness :
  retrieve "other"
    (run_agent Demo.toy_registry "demo" 10
       (Demo.with_history (Ok (Demo.plan_text [true])) "other"
                          [Demo.past Demo.good_step "done"])).2
  = [Demo.past Demo.good_step "done"].
Proof.
  destruct (run_agent_appends_to_goal
              Demo.toy_registry "demo" 10
              (Demo.with_history (Ok (Demo.plan_text [true])) "other"
                                 [Demo.past Demo.good_step "done"]))
    as [_ Hother].
  rewrite Hother; [reflexivity | discriminate].
Defined.

Lemma run_agent_empty_registry_witness :
  (@run_agent Demo.toy [] "demo" 10 (Demo.fresh (Ok "[]"))).1 = Ok false
  /\ @_load_skills Demo.toy (Raise (Exn ImportError "No module named skills"))
                   []
     = Ok [].
Proof.
  destruct (@run_agent_empty_registry Demo.toy "demo" 10 (Demo.fresh (Ok "[]")))
    as [Hrun Hload].
  split; [exact Hrun |]. apply Hload. reflexivity.
Defined.

Lemma clear_agent_memory_cases_witness :
  retrieve "demo"
    (clear_agent_memory (Some "demo")
       (Demo.with_history (Ok "") "demo" [Demo.past Demo.good_step "done"])).2
  = [].
Proof.
  destruct (clear_agent_memory_cases
              "demo"
              (Demo.with_history (Ok "") "demo"
                                 [Demo.past Demo.good_step "done"]))
    as (_ & _ & Hnamed).
  destruct Hnamed as (_ & Hempty & _); [discriminate | exact Hempty].
Defined.

(** ** Planning without a model *)

Section WithoutModel.
Context `{Collaborators}.

Lemma lower_app (a b : string) :
  PyStr.lower (a +:+ b) = PyStr.lower a +:+ PyStr.lower b.
Proof.
  induction a as [| x a IH]; [reflexivity |].
  rewrite app_cons. simpl. by rewrite IH.
Qed.

Lemma contains_app_r (sub a b : string) :
  PyStr.contains sub b = true -> PyStr.contains sub (a +:+ b) = true.
Proof.
  intros Hb. induction a as [| x a IH]; [exact Hb |].
  rewrite app_cons. simpl. rewrite IH. apply orb_true_r.
Qed.

(** The planner's prompt always speaks of a plan. *)
Lemma mock_response_to_plan_prompt (goal prior_context skills : string) :
  _mock_response (plan_prompt goal prior_context skills) = mock_plan_text.
Proof.
  assert (Hplan : PyStr.contains "plan"
                    (PyStr.lower (plan_prompt goal prior_context skills))
                  = true).
  { unfold plan_prompt. cbn [PyStr.join]. rewrite !lower_app.
    repeat apply contains_app_r. vm_compute. reflexivity. }
  unfold _mock_response. by rewrite Hplan.
Qed.

Lemma parse_mock_plan_text (steps : list json) :
  json_loads mock_plan_text = Ok (JArr steps) ->
  _parse_plan_response mock_plan_text = Ok steps.
Proof.
  intros Hjson. unfold _parse_plan_response. cbv zeta.
  set (missing := (_ || _)%bool).
  set (json_str := PyStr.slice _ _ _).
  assert (Hmissing : missing = false) by (vm_compute; reflexivity).
  assert (Hstr : json_str = mock_plan_text) by (vm_compute; reflexivity).
  by rewrite Hmissing, Hstr, Hjson.
Qed.

Lemma registered_in_names {V : Type} (name : string) (d : list (string * V)) :
  dict_get name d <> None -> existsb (String.eqb name) (dict_keys d) = true.
Proof.
  intros Hsome. apply existsb_exists. exists name.
  split; [| apply String.eqb_refl].
  apply dict_get_keys. destruct (dict_get name d) as [v |]; [by exists v | done].
Qed.

(** X26. With no model loaded the planner does not look at the goal: the
    mock answer of [MistralLLM.generate] is its canned plan, whatever the
    goal and the context, so [plan_steps] returns the validated steps of
    that plan and leaves the state as it is; with [generate_task_code] and
    [trace_variable_flow] registered these are the two canned steps. *)
Theorem plan_steps_without_model (registry : Registry)
        (goal prior_context : string) (st : State) :
  (forall prompt max_tokens temperature w,
      llm_generate prompt max_tokens temperature w
      = (Ok (generate None prompt max_tokens temperature w).1,
         (generate None prompt max_tokens temperature w).2)) ->
  json_loads mock_plan_text = Ok (JArr NoModel.mock_plan) ->
  plan_steps registry goal prior_context st
  = (Ok (_validate_steps NoModel.mock_plan (list_skills registry)), st)
  /\ (dict_get "generate_task_code" registry <> None ->
      dict_get "trace_variable_flow" registry <> None ->
      _validate_steps NoModel.mock_plan (list_skills registry)
      = NoModel.mock_plan).
Proof.
  intros Hllm Hjson. split.
  - unfold plan_steps, plan_attempt. unfold_run. unfold call_model.
    rewrite Hllm. cbn [generate fst snd].
    rewrite mock_response_to_plan_prompt.
    rewrite (parse_mock_plan_text _ Hjson). by destruct st.
  - intros Hgen Htrace.
    assert (Hkeeps : forall name params,
               dict_get name registry <> None -> name <> "" ->
               spec_keeps (list_skills registry)
                          (JObj [("action", JStr name); ("params", params)])
               = true).
    { intros name params Hreg Hname. unfold spec_keeps, list_skills.
      simpl dict_get. cbv iota beta.
      by rewrite (registered_in_names _ _ Hreg),
           (proj2 (String.eqb_neq _ _) Hname). }
    rewrite validate_steps_filter. unfold NoModel.mock_plan.
    cbn [List.filter]. rewrite !Hkeeps by done. reflexivity.
Qed.

End WithoutModel.

Lemma plan_steps_without_model_witness :
  plan_steps NoModel.both_skills "tidy the parser" "" NoModel.start
  = (Ok NoModel.mock_plan, NoModel.start).
Proof.
  destruct (@plan_steps_without_model NoModel.mock NoModel.both_skills
              "tidy the parser" "" NoModel.start) as [Hrun Hboth].
  - intros prompt max_tokens temperature w. reflexivity.
  - vm_compute. reflexivity.
  - rewrite Hrun, Hboth; [reflexivity | |]; vm_compute; discriminate.
Defined.

(** ** Cleaning generated code *)

Section CodeCleaning.

Ltac norm_app :=
  unfold PyStr.nl; repeat (rewrite ?string_app_assoc, ?app_cons, ?app_nil).

Lemma string_app_nil_r (s : string) : s +:+ "" = s.
Proof.
  induction s as [| a s IH]; [reflexivity |]. rewrite app_cons. by rewrite IH.
Qed.

Lemma length_lstrip (s : string) :
  (String.length (PyStr.lstrip s) <= String.length s)%nat.
Proof.
  induction s as [| a s IH]; simpl; [lia |].
  destruct (PyStr.is_space a); simpl; lia.
Qed.

Lemma length_rstrip (s : string) :
  (String.length (PyStr.rstrip s) <= String.length s)%nat.
Proof.
  induction s as [| a s IH]; simpl; [lia |].
  destruct (PyStr.rstrip s) as [| b r].
  - destruct (PyStr.is_space a); simpl; lia.
  - simpl in *. lia.
Qed.

Lemma len_strip_le (s : string) : PyStr.len (PyStr.strip s) <= PyStr.len s.
Proof.
  unfold PyStr.len, PyStr.strip.
  pose proof (length_rstrip (PyStr.lstrip s)). pose proof (length_lstrip s).
  lia.
Qed.

Lemma length_drop (n : nat) (s : string) :
  (String.length (PyStr.drop n s) <= String.length s)%nat.
Proof.
  revert s. induction n as [| n IH]; intros s; [simpl; lia |].
  destruct s as [| a s]; simpl; [lia |]. specialize (IH s). lia.
Qed.

Lemma length_take (n : nat) (s : string) :
  (String.length (PyStr.take n s) <= String.length s)%nat.
Proof.
  revert s. induction n as [| n IH]; intros s; [destruct s; simpl; lia |].
  destruct s as [| a s]; simpl; [lia |]. specialize (IH s). lia.
Qed.

Lemma len_slice_le (s : string) (start stop : Z) :
  PyStr.len (PyStr.slice s start stop) <= PyStr.len s.
Proof.
  unfold PyStr.slice. cbv zeta.
  generalize (Z.to_nat (PyStr.clamp (PyStr.len s) stop
                        - PyStr.clamp (PyStr.len s) start)).
  generalize (Z.to_nat (PyStr.clamp (PyStr.len s) start)).
  intros k n. unfold PyStr.len.
  pose proof (length_take n (PyStr.drop k s)).
  pose proof (length_drop k s). lia.
Qed.

(** X27. [_clean_code_response] never returns fewer than 10 characters,
    and a response whose text without surrounding whitespace is shorter
    than 10 characters is replaced by the placeholder. *)
Theorem clean_code_never_short (response : string) :
  10 <= PyStr.len (_clean_code_response response)
  /\ (PyStr.len (PyStr.strip response) < 10 ->
      _clean_code_response response = code_placeholder).
Proof.
  unfold _clean_code_response. cbv zeta.
  set (r1 := PyStr.strip response).
  set (r2 := if PyStr.startswith "```python" r1
             then PyStr.slice r1 9 (PyStr.len r1)
             else if PyStr.startswith "```" r1
                  then PyStr.slice r1 3 (PyStr.len r1) else r1).
  set (r3 := if PyStr.endswith "```" r2 then PyStr.slice r2 0 (-3) else r2).
  assert (H2 : PyStr.len r2 <= PyStr.len r1).
  { unfold r2. destruct (PyStr.startswith "```python" r1);
      [apply len_slice_le |].
    destruct (PyStr.startswith "```" r1); [apply len_slice_le | lia]. }
  assert (H3 : PyStr.len r3 <= PyStr.len r2).
  { unfold r3. destruct (PyStr.endswith "```" r2); [apply len_slice_le | lia]. }
  pose proof (len_strip_le r3) as H4.
  destruct (PyStr.len (PyStr.strip r3) <? 10) eqn:Hshort.
  - split; [vm_compute; discriminate | reflexivity].
  - apply Z.ltb_ge in Hshort. split; [exact Hshort | lia].
Qed.

(** A text that [strip] leaves alone begins and ends with a character that
    is not white space. *)
Lemma stripped_head (code : string) :
  PyStr.strip code = code -> code <> "" ->
  exists c rest, code = String c rest /\ PyStr.is_space c = false.
Proof.
  intros Hstrip Hne. destruct code as [| c rest]; [done |].
  exists c, rest. split; [reflexivity |].
  destruct (PyStr.is_space c) eqn:Hc; [| reflexivity].
  exfalso. unfold PyStr.strip in Hstrip. simpl in Hstrip. rewrite Hc in Hstrip.
  pose proof (length_rstrip (PyStr.lstrip rest)).
  pose proof (length_lstrip rest).
  apply (f_equal String.length) in Hstrip. simpl in Hstrip. lia.
Qed.

Lemma rstrip_last (s : string) :
  PyStr.rstrip s = ""
  \/ exists front c,
       PyStr.rstrip s = front +:+ String c "" /\ PyStr.is_space c = false.
Proof.
  induction s as [| a s IH]; [by left |]. simpl.
  destruct IH as [-> | (front & c & -> & Hc)].
  - destruct (PyStr.is_space a) eqn:Ha; [by left |].
    right. by exists "", a.
  - right. exists (String a front), c. split; [| exact Hc].
    destruct front; reflexivity.
Qed.

Lemma stripped_last (code : string) :
  PyStr.strip code = code -> code <> "" ->
  exists front c, code = front +:+ String c "" /\ PyStr.is_space c = false.
Proof.
  intros Hstrip Hne. unfold PyStr.strip in Hstrip.
  destruct (rstrip_last (PyStr.lstrip code)) as [Hempty | (front & c & Hr & Hc)].
  - congruence.
  - exists front, c. split; [congruence | exact Hc].
Qed.

Lemma lstrip_stripped_app (code suffix : string) :
  PyStr.strip code = code -> code <> "" ->
  PyStr.lstrip (code +:+ suffix) = code +:+ suffix.
Proof.
  intros Hstrip Hne.
  destruct (stripped_head code Hstrip Hne) as (c & rest & -> & Hc).
  rewrite app_cons. simpl. by rewrite Hc.
Qed.

Lemma rstrip_stripped_app (prefix code suffix : string) :
  PyStr.strip code = code -> code <> "" ->
  PyStr.rstrip (prefix +:+ code +:+ suffix)
  = prefix +:+ code +:+ PyStr.rstrip suffix.
Proof.
  intros Hstrip Hne.
  destruct (stripped_last code Hstrip Hne) as (front & c & -> & Hc).
  replace (prefix +:+ (front +:+ String c "") +:+ suffix)
    with ((prefix +:+ front) +:+ String c suffix) by (by norm_app).
  rewrite rstrip_app_nonspace by exact Hc. by norm_app.
Qed.

Lemma startswith_app (p r : string) : PyStr.startswith p (p +:+ r) = true.
Proof.
  induction p as [| a p IH]; [reflexivity |].
  rewrite app_cons. simpl. by rewrite Ascii.eqb_refl.
Qed.

Lemma endswith_app (a p : string) : PyStr.endswith p (a +:+ p) = true.
Proof.
  unfold PyStr.endswith. rewrite string_length_app.
  replace (String.length a + String.length p - String.length p)%nat
    with (String.length a) by lia.
  rewrite drop_app, String.eqb_refl.
  rewrite andb_true_r. apply Nat.leb_le. lia.
Qed.

Lemma slice_drop_prefix (p r : string) :
  PyStr.slice (p +:+ r) (PyStr.len p) (PyStr.len (p +:+ r)) = r.
Proof.
  rewrite <- (string_app_nil_r r) at 1.
  rewrite len_app, (string_app_nil_r r).
  replace (p +:+ r) with (p +:+ r +:+ "") by (by rewrite string_app_nil_r).
  apply slice_middle.
Qed.

Lemma slice_drop_suffix (a p : string) :
  0 < PyStr.len p ->
  PyStr.slice (a +:+ p) 0 (- PyStr.len p) = a.
Proof.
  intros Hp. unfold PyStr.slice, PyStr.clamp. rewrite len_app.
  pose proof (len_nonneg a).
  rewrite (proj2 (Z.ltb_ge 0 0)) by lia.
  rewrite (proj2 (Z.ltb_lt (- PyStr.len p) 0)) by lia.
  rewrite Z.min_l, Z.max_l by lia.
  replace (Z.to_nat (- PyStr.len p + (PyStr.len a + PyStr.len p) - 0))
    with (String.length a) by (unfold PyStr.len; lia).
  simpl PyStr.drop. apply take_app.
Qed.

(** What is left of a fenced block once the opening fence is gone. *)
Lemma clean_after_opening (code : string) :
  PyStr.strip code = code -> code <> "" ->
  PyStr.strip
    (if PyStr.endswith "```" (PyStr.nl +:+ code +:+ PyStr.nl +:+ "```")
     then PyStr.slice (PyStr.nl +:+ code +:+ PyStr.nl +:+ "```") 0 (-3)
     else PyStr.nl +:+ code +:+ PyStr.nl +:+ "```")
  = code.
Proof.
  intros Hstrip Hne.
  replace (PyStr.nl +:+ code +:+ PyStr.nl +:+ "```")
    with ((PyStr.nl +:+ code +:+ PyStr.nl) +:+ "```")
    by (by rewrite !string_app_assoc).
  rewrite endswith_app.
  change (-3) with (- PyStr.len "```").
  rewrite slice_drop_suffix by (vm_compute; reflexivity).
  unfold PyStr.strip.
  replace (PyStr.lstrip (PyStr.nl +:+ code +:+ PyStr.nl))
    with (PyStr.lstrip (code +:+ PyStr.nl)) by reflexivity.
  rewrite lstrip_stripped_app by done.
  rewrite <- (app_nil (code +:+ PyStr.nl)).
  rewrite rstrip_stripped_app by done.
  rewrite app_nil. apply string_app_nil_r.
Qed.

Lemma strip_fenced (opening code : string) (c : ascii) :
  PyStr.is_space c = false ->
  PyStr.strip code = code -> code <> "" ->
  PyStr.strip (String c opening +:+ PyStr.nl +:+ code +:+ PyStr.nl +:+ "```")
  = String c opening +:+ PyStr.nl +:+ code +:+ PyStr.nl +:+ "```".
Proof.
  intros Hc Hstrip Hne. unfold PyStr.strip.
  rewrite app_cons. simpl PyStr.lstrip. rewrite Hc.
  rewrite <- app_cons.
  replace (String c opening +:+ PyStr.nl +:+ code +:+ PyStr.nl +:+ "```")
    with ((String c opening +:+ PyStr.nl) +:+ code +:+ PyStr.nl +:+ "```")
    by (by rewrite !string_app_assoc).
  rewrite rstrip_stripped_app by done. reflexivity.
Qed.

(** X28. A fenced block gives back its code: for a text [code] of at least
    10 characters without surrounding white space, the response made of an
    opening fence (with or without [python]), a line break, [code], a line
    break and a closing fence is cleaned to [code]. *)
Theorem clean_fenced_code (code : string) :
  PyStr.strip code = code ->
  10 <= PyStr.len code ->
  _clean_code_response
    ("```python" +:+ PyStr.nl +:+ code +:+ PyStr.nl +:+ "```") = code
  /\ _clean_code_response
       ("```" +:+ PyStr.nl +:+ code +:+ PyStr.nl +:+ "```") = code.
Proof.
  intros Hstrip Hlen.
  assert (Hne : code <> "") by (intros ->; unfold PyStr.len in Hlen; simpl in Hlen; lia).
  pose proof (clean_after_opening code Hstrip Hne) as Hinner.
  split; unfold _clean_code_response; cbv zeta;
    rewrite strip_fenced by done.
  - rewrite startswith_app. cbv iota.
    rewrite (slice_drop_prefix "```python"
               (PyStr.nl +:+ code +:+ PyStr.nl +:+ "```") : PyStr.slice _ 9 _ = _).
    rewrite Hinner.
    by rewrite (proj2 (Z.ltb_ge _ _) Hlen).
  - replace (PyStr.startswith "```python"
               ("```" +:+ PyStr.nl +:+ code +:+ PyStr.nl +:+ "```"))
      with false by reflexivity.
    rewrite startswith_app. cbv iota.
    rewrite (slice_drop_prefix "```"
               (PyStr.nl +:+ code +:+ PyStr.nl +:+ "```") : PyStr.slice _ 3 _ = _).
    rewrite Hinner.
    by rewrite (proj2 (Z.ltb_ge _ _) Hlen).
Qed.

End CodeCleaning.

Lemma clean_code_never_short_witness :
  _clean_code_response "  pass  " = code_placeholder.
Proof.
  destruct (clean_code_never_short "  pass  ") as [_ Hshort].
  apply Hshort. vm_compute. reflexivity.
Defined.

Lemma clean_fenced_code_witness :
  _clean_code_response
    ("```python" +:+ PyStr.nl +:+ "print('hello')" +:+ PyStr.nl +:+ "```")
  = "print('hello')".
Proof.
  destruct (clean_fenced_code "print('hello')") as [Hpython _].
  - vm_compute. reflexivity.
  - vm_compute. discriminate.
  - exact Hpython.
Defined.
